(** * provider-litellm: the Key controller

    A shallow embedding of [internal/controller/key/key.go] and of the API
    types of [apis/key/v1alpha1/key_types.go], followed by the properties of
    the connector and of the external client.

    Go values are modelled as follows.
    - [string] is a byte string; [[]byte] is a list of bytes.
    - [float64] is an IEEE-754 value class ([spec_float]): zero, infinity,
      NaN or a finite number.
    - A Go [error] result is [option error]: [None] is [nil].
    - A nil-able slice or map is an [option]: [None] is [nil].
    - Several results are returned as a tuple, as Go does, so that the value
      returned next to a non-nil error is visible.
    - A method with a pointer receiver or argument returns the new contents
      of the pointee next to its results.
    - Calls that leave the process (the Kubernetes API, HTTP, standard output)
      are threaded through an explicit state that also keeps a log of them. *)

From Stdlib Require Import ZArith List String Ascii.
From Stdlib Require Strings.Byte.
From Stdlib Require Import Floats.SpecFloat.
From stdpp Require Import base gmap strings list.

Local Open Scope string_scope.

(** ** Go built-in types *)

Definition bytes : Type := list Byte.byte.

Definition float64 : Type := spec_float.

(** The conversion [[]byte(s)]. *)
Definition bytes_of_string (s : string) : bytes := list_byte_of_string s.

(** ** github.com/pkg/errors *)

Module errors.

(** An error is either created from a message or wraps a cause with a
    message.  Errors of other libraries are values of this type too; only
    their text matters here. *)
Inductive error : Type :=
| New (msg : string)
| Wrap (cause : error) (msg : string).

(** The [Error()] method: a wrapped error prints its message, a colon and
    the text of its cause. *)
Fixpoint Error (e : error) : string :=
  match e with
  | New msg => msg
  | Wrap cause msg => msg +:+ ": " +:+ Error cause
  end.

End errors.

Abbreviation error := errors.error.

(** ** math *)

Module math.

Definition IsNaN (f : float64) : bool :=
  match f with
  | S754_nan => true
  | _ => false
  end.

(** [IsInf(f, 0)]: either infinity. *)
Definition IsInf (f : float64) : bool :=
  match f with
  | S754_infinity _ => true
  | _ => false
  end.

End math.

(** ** time and k8s.io/apimachinery/pkg/apis/meta/v1 *)

Module time.

Module Time.
Record t : Type := mk { UnixNano : Z }.
End Time.

End time.

Module metav1.

Module Time.
Record t : Type := mk { Time : time.Time.t }.
End Time.

Module TypeMeta.
Record t : Type := mk { Kind : string; APIVersion : string }.
End TypeMeta.

Module ObjectMeta.
Record t : Type := mk {
  Name : string;
  Annotations : option (gmap string string);
  Finalizers : list string;
  DeletionTimestamp : option Time.t
}.
End ObjectMeta.

End metav1.

(** ** github.com/crossplane/crossplane-runtime/apis/common/v1 *)

Module xpv1.

Module Reference.
Record t : Type := mk { Name : string }.
End Reference.

(** The provider configuration reference is defaulted by the API server, so
    a stored record always carries one. *)
Module ResourceSpec.
Record t : Type := mk { ProviderConfigReference : Reference.t }.
End ResourceSpec.

Module Condition.
Record t : Type := mk {
  Type_ : string;
  Status : string;
  Reason : string;
  LastTransitionTime : metav1.Time.t
}.
End Condition.

Module ResourceStatus.
Record t : Type := mk { Conditions : list Condition.t }.
End ResourceStatus.

Definition CredentialsSource : Type := string.

Module CommonCredentialSelectors.
Record t : Type := mk {
  Fs : option string;
  Env : option string;
  SecretRef : option (string * string * string)
}.
End CommonCredentialSelectors.

End xpv1.

(** ** apis/key/v1alpha1 *)

Module v1alpha1.

(** KeyParameters are the configurable fields of a Key. *)
Module KeyParameters.
Record t : Type := mk {
  Duration : string;
  KeyAlias : string;
  Key : string;
  TeamID : string;
  UserID : string;
  Models : option (list string);
  MaxBudget : float64;
  BudgetDuration : string;
  Metadata : option (gmap string string)
}.
End KeyParameters.

(** KeyObservation are the observable fields of a Key. *)
Module KeyObservation.
Record t : Type := mk {
  Key : string;
  Expires : metav1.Time.t;
  UserID : string;
  Status : string
}.
End KeyObservation.

Module KeySpec.
Record t : Type := mk {
  ResourceSpec : xpv1.ResourceSpec.t;
  ForProvider : KeyParameters.t
}.
End KeySpec.

Module KeyStatus.
Record t : Type := mk {
  ResourceStatus : xpv1.ResourceStatus.t;
  AtProvider : KeyObservation.t
}.
End KeyStatus.

Module Key.
Record t : Type := mk {
  TypeMeta : metav1.TypeMeta.t;
  ObjectMeta : metav1.ObjectMeta.t;
  Spec : KeySpec.t;
  Status : KeyStatus.t
}.
End Key.

(** The Team kind, the other managed kind of the provider. *)
Module TeamParameters.
Record t : Type := mk { ConfigurableField : string }.
End TeamParameters.

Module TeamObservation.
Record t : Type := mk { ObservableField : string }.
End TeamObservation.

Module TeamSpec.
Record t : Type := mk {
  ResourceSpec : xpv1.ResourceSpec.t;
  ForProvider : TeamParameters.t
}.
End TeamSpec.

Module TeamStatus.
Record t : Type := mk {
  ResourceStatus : xpv1.ResourceStatus.t;
  AtProvider : TeamObservation.t
}.
End TeamStatus.

Module Team.
Record t : Type := mk {
  TypeMeta : metav1.TypeMeta.t;
  ObjectMeta : metav1.ObjectMeta.t;
  Spec : TeamSpec.t;
  Status : TeamStatus.t
}.
End Team.

(** Modelled from the spec: the generated accessor of
    [spec.providerConfigRef], the reference from a record to its
    ProviderConfig. *)
Definition GetProviderConfigReference (cr : Key.t) : xpv1.Reference.t :=
  xpv1.ResourceSpec.ProviderConfigReference (KeySpec.ResourceSpec (Key.Spec cr)).

(** The assignments [cr.Status.AtProvider.F = v], one per field. *)
Definition with_AtProvider (f : KeyObservation.t -> KeyObservation.t) (cr : Key.t) : Key.t :=
  Key.mk (Key.TypeMeta cr) (Key.ObjectMeta cr) (Key.Spec cr)
    (KeyStatus.mk (KeyStatus.ResourceStatus (Key.Status cr))
       (f (KeyStatus.AtProvider (Key.Status cr)))).

Definition set_Key (v : string) (o : KeyObservation.t) : KeyObservation.t :=
  KeyObservation.mk v (KeyObservation.Expires o) (KeyObservation.UserID o) (KeyObservation.Status o).

Definition set_Expires (v : metav1.Time.t) (o : KeyObservation.t) : KeyObservation.t :=
  KeyObservation.mk (KeyObservation.Key o) v (KeyObservation.UserID o) (KeyObservation.Status o).

Definition set_UserID (v : string) (o : KeyObservation.t) : KeyObservation.t :=
  KeyObservation.mk (KeyObservation.Key o) (KeyObservation.Expires o) v (KeyObservation.Status o).

Definition set_Status (v : string) (o : KeyObservation.t) : KeyObservation.t :=
  KeyObservation.mk (KeyObservation.Key o) (KeyObservation.Expires o) (KeyObservation.UserID o) v.

End v1alpha1.

(** ** apis/v1alpha1: the provider configuration *)

Module apisv1alpha1.

(** Modelled from the spec: the ProviderConfig type, declared in the package
    [apis/v1alpha1].  It is the connection level configuration shared by
    many records: an API base address and a credential source reference.
    [Connect] reads exactly these fields. *)
Module ProviderCredentials.
Record t : Type := mk {
  Source : xpv1.CredentialsSource;
  CommonCredentialSelectors : xpv1.CommonCredentialSelectors.t
}.
End ProviderCredentials.

Module ProviderConfigSpec.
Record t : Type := mk {
  Credentials : ProviderCredentials.t;
  APIBase : string
}.
End ProviderConfigSpec.

Module ProviderConfig.
Record t : Type := mk {
  ObjectMeta : metav1.ObjectMeta.t;
  Spec : ProviderConfigSpec.t
}.
End ProviderConfig.

End apisv1alpha1.

(** ** github.com/crossplane/crossplane-runtime/pkg/resource and
       pkg/reconciler/managed *)

Module resource.

(** The [Managed] interface, inhabited by (non-nil) pointers to the two
    managed kinds of this provider.  The type assertion of [mg] to a pointer
    to [v1alpha1.Key] is a match on the constructor. *)
Inductive Managed : Type :=
| Managed_Key (cr : v1alpha1.Key.t)
| Managed_Team (cr : v1alpha1.Team.t).

End resource.

Module managed.

(** A nil map is [None]; the literal [ConnectionDetails{}] is [Some ∅]. *)
Definition ConnectionDetails : Type := option (gmap string bytes).

Module ExternalObservation.
Record t : Type := mk {
  ResourceExists : bool;
  ResourceUpToDate : bool;
  ResourceLateInitialized : bool;
  ConnectionDetails : managed.ConnectionDetails
}.
Definition zero : t := mk false false false None.
End ExternalObservation.

Module ExternalCreation.
Record t : Type := mk { ConnectionDetails : managed.ConnectionDetails }.
Definition zero : t := mk None.
End ExternalCreation.

Module ExternalUpdate.
Record t : Type := mk { ConnectionDetails : managed.ConnectionDetails }.
Definition zero : t := mk None.
End ExternalUpdate.

End managed.

(** ** net/http: requests and responses *)

Module http.

Module Request.
Record t : Type := mk {
  Method : string;
  URL : string;
  Header : gmap string (list string);
  Body : bytes
}.
End Request.

Module Response.
Record t : Type := mk { StatusCode : Z; Body : bytes }.
End Response.

(** [&http.Client{}]: the default client, without configuration. *)
Module Client.
Record t : Type := mk { }.
End Client.

(** [req.Header.Set(key, value)] replaces the values stored under [key].  The
    two keys used by the controller are already in canonical form. *)
Definition Header_Set (req : Request.t) (key value : string) : Request.t :=
  Request.mk (Request.Method req) (Request.URL req)
    (<[key := [value]]> (Request.Header req)) (Request.Body req).

End http.

(** ** The struct decoded from the response of [/key/generate] *)

Module keyResponse.
Record t : Type := mk {
  Key : string;
  Expires : time.Time.t;
  UserID : string;
  Status : string
}.
End keyResponse.

(** ** The Kubernetes client interface *)

Module client.

(** [Get] of a cluster-scoped ProviderConfig by name. *)
Module Client.
Record t (Cluster : Type) : Type := mk {
  Get : Cluster -> string -> apisv1alpha1.ProviderConfig.t + error
}.
Arguments mk {Cluster} _.
Arguments Get {Cluster} _ _ _.
End Client.

End client.

(** ** What lies outside the repository

    The behaviour of the libraries and services the controller calls is a
    parameter of the development: the leaf encoders of [encoding/json], the
    URL check of [http.NewRequest], the remote LiteLLM service, the
    decoding of its answer, the cluster behind the Kubernetes client and the
    credential extractor of crossplane-runtime.  [APIKeyOf] stands for the
    expression that reads the API key out of the credential bytes, whose
    selector constant is declared outside this repository. *)

Record Platform : Type := {
  json_quote : string -> string;
  json_number : float64 -> string;
  json_Decode : bytes -> keyResponse.t + error;
  url_Parse : string -> option error;
  Remote : Type;
  RoundTrip : Remote -> http.Request.t -> Remote * (http.Response.t + error);
  Cluster : Type;
  CommonCredentialExtractor :
    client.Client.t Cluster -> Cluster -> xpv1.CredentialsSource ->
    xpv1.CommonCredentialSelectors.t -> bytes + error;
  APIKeyOf : bytes -> string
}.

(** A call of [fmt.Printf] with the [%+v] verb: the format and the record
    it prints.  The verb writes every field of the record with its name,
    [status.atProvider] included, so the text written is determined by, and
    differs with, the record. *)
Module PrintCall.
Record t : Type := mk { format : string; arg : v1alpha1.Key.t }.
End PrintCall.

(** The world an external client acts on: the remote service, the requests
    handed to the HTTP client so far and the calls that wrote to standard
    output so far. *)
Module World.
Record t (P : Platform) : Type := mk {
  remote : Remote P;
  wire : list http.Request.t;
  stdout : list PrintCall.t
}.
Arguments mk {P} _ _ _.
Arguments remote {P} _.
Arguments wire {P} _.
Arguments stdout {P} _.
End World.

Module fmt.

Definition Printf {P : Platform} (format : string) (a : v1alpha1.Key.t) (w : World.t P) : World.t P :=
  World.mk (World.remote w) (World.wire w) (World.stdout w ++ [PrintCall.mk format a]).

End fmt.

(** ** encoding/json: Marshal *)

Module json.

(** The dynamic values stored in the payload map of [Create]. *)
Inductive value : Type :=
| String_ (s : string)
| Strings (l : option (list string))
| Float64 (f : float64)
| StringMap (m : option (gmap string string)).

(** Map keys are written in increasing byte order. *)
Fixpoint insert_by_key {V : Type} (kv : string * V) (l : list (string * V)) : list (string * V) :=
  match l with
  | [] => [kv]
  | kv' :: l' =>
      if String.leb (fst kv) (fst kv') then kv :: l else kv' :: insert_by_key kv l'
  end.

Definition sort_by_key {V : Type} (l : list (string * V)) : list (string * V) :=
  foldr insert_by_key [] l.

Definition array (items : list string) : string :=
  "[" +:+ String.concat "," items +:+ "]".

Definition member (P : Platform) (kv : string * string) : string :=
  json_quote P (fst kv) +:+ ":" +:+ snd kv.

Definition object (P : Platform) (members : list (string * string)) : string :=
  "{" +:+ String.concat "," (map (member P) members) +:+ "}".

(** The text of an [UnsupportedValueError]. *)
Definition unsupported (f : float64) : error :=
  errors.New ("json: unsupported value: " +:+
    match f with
    | S754_nan => "NaN"
    | S754_infinity true => "-Inf"
    | _ => "+Inf"
    end).

(** A nil slice and a nil map are written as [null]; a float that is NaN or
    infinite cannot be written: the float encoder of [encoding/json] reports
    an [UnsupportedValueError] for it. *)
Definition encode (P : Platform) (v : value) : string + error :=
  match v with
  | String_ s => inl (json_quote P s)
  | Strings None => inl "null"
  | Strings (Some l) => inl (array (map (json_quote P) l))
  | Float64 f =>
      if math.IsInf f || math.IsNaN f then inr (unsupported f)
      else inl (json_number P f)
  | StringMap None => inl "null"
  | StringMap (Some m) =>
      inl (object P (sort_by_key (map_to_list (json_quote P <$> m))))
  end.

(** Members are encoded in key order; the first failure aborts. *)
Fixpoint encode_members (P : Platform) (l : list (string * value)) : list (string * string) + error :=
  match l with
  | [] => inl []
  | (k, v) :: l' =>
      match encode P v with
      | inr err => inr err
      | inl s =>
          match encode_members P l' with
          | inr err => inr err
          | inl ms => inl ((k, s) :: ms)
          end
      end
  end.

(** [json.Marshal] of a [map[string]interface{}]. *)
Definition Marshal (P : Platform) (m : gmap string value) : bytes + error :=
  match encode_members P (sort_by_key (map_to_list m)) with
  | inr err => inr err
  | inl ms => inl (bytes_of_string (object P ms))
  end.

End json.

(** ** net/http: building and sending a request *)

Module httpc.

(** [http.NewRequest]: the method is a constant valid token, so only the URL
    can be rejected. *)
Definition NewRequest (P : Platform) (method url : string) (body : bytes) : http.Request.t + error :=
  match url_Parse P url with
  | Some err => inr err
  | None => inl (http.Request.mk method url ∅ body)
  end.

(** [client.Do(req)]: the request goes to the remote service, which answers
    or fails; either way the request has been handed over. *)
Definition Do {P : Platform} (c : http.Client.t) (req : http.Request.t) (w : World.t P) : World.t P * (http.Response.t + error) :=
  let '(r, res) := RoundTrip P (World.remote w) req in
  (World.mk r (World.wire w ++ [req]) (World.stdout w), res).

End httpc.

(** ** internal/controller/key *)

Module key.

Definition errNotKey : string := "managed resource is not a Key custom resource".
Definition errTrackPCUsage : string := "cannot track ProviderConfig usage".
Definition errGetPC : string := "cannot get ProviderConfig".
Definition errGetCreds : string := "cannot get credentials".
Definition errNewClient : string := "cannot create new Service".

(** A NoOpService does nothing. *)
Module NoOpService.
Record t : Type := mk { }.
End NoOpService.

(** The [interface{}] held in the [service] field. *)
Inductive Service : Type :=
| Service_nil
| Service_NoOp (p : NoOpService.t).

Definition newNoOpService (_ : bytes) : Service * option error :=
  (Service_NoOp NoOpService.mk, None).

(** The collaborators a [Connect] can call, in the order of the source. *)
Inductive Step : Type :=
| StepTrack
| StepGetPC
| StepGetCreds
| StepNewService.

(** The state [Connect] runs in: the cluster and the collaborators called
    so far. *)
Module Kube.
Record t (P : Platform) : Type := mk {
  cluster : Cluster P;
  called : list Step
}.
Arguments mk {P} _ _.
Arguments cluster {P} _.
Arguments called {P} _.
End Kube.

(** [resource.Tracker]: tracking writes a usage object to the cluster. *)
Module Tracker.
Record t (P : Platform) : Type := mk {
  Track : Cluster P -> resource.Managed -> Cluster P * option error
}.
Arguments mk {P} _.
Arguments Track {P} _ _ _.
End Tracker.

(** A connector is expected to produce an ExternalClient when its Connect
    method is called. *)
Module connector.
Record t (P : Platform) : Type := mk {
  kube : client.Client.t (Cluster P);
  usage : Tracker.t P;
  newServiceFn : bytes -> Service * option error
}.
Arguments mk {P} _ _ _.
Arguments kube {P} _.
Arguments usage {P} _.
Arguments newServiceFn {P} _.
End connector.

(** An ExternalClient observes, then either creates, updates, or deletes an
    external resource. *)
Module external.
Record t : Type := mk {
  service : Service;
  client : http.Client.t;
  apiBase : string;
  apiKey : string
}.
End external.

Section Connector.
Context {P : Platform}.

Definition step (s : Step) (k : Kube.t P) : Kube.t P :=
  Kube.mk (Kube.cluster k) (Kube.called k ++ [s]).

Definition Connect (c : connector.t P) (mg : resource.Managed) (k : Kube.t P) : Kube.t P * (option external.t * option error) :=
  match mg with
  | resource.Managed_Team _ => (k, (None, Some (errors.New errNotKey)))
  | resource.Managed_Key cr =>
      let '(cl, err) := Tracker.Track (connector.usage c) (Kube.cluster k) mg in
      let k := step StepTrack (Kube.mk cl (Kube.called k)) in
      match err with
      | Some err => (k, (None, Some (errors.Wrap err errTrackPCUsage)))
      | None =>
          let k := step StepGetPC k in
          match client.Client.Get (connector.kube c) (Kube.cluster k)
                  (xpv1.Reference.Name (v1alpha1.GetProviderConfigReference cr)) with
          | inr err => (k, (None, Some (errors.Wrap err errGetPC)))
          | inl pc =>
              let cd := apisv1alpha1.ProviderConfigSpec.Credentials (apisv1alpha1.ProviderConfig.Spec pc) in
              let k := step StepGetCreds k in
              match CommonCredentialExtractor P (connector.kube c) (Kube.cluster k)
                      (apisv1alpha1.ProviderCredentials.Source cd)
                      (apisv1alpha1.ProviderCredentials.CommonCredentialSelectors cd) with
              | inr err => (k, (None, Some (errors.Wrap err errGetCreds)))
              | inl data =>
                  let k := step StepNewService k in
                  match connector.newServiceFn c data with
                  | (_, Some err) => (k, (None, Some (errors.Wrap err errNewClient)))
                  | (svc, None) =>
                      let apiBase := apisv1alpha1.ProviderConfigSpec.APIBase (apisv1alpha1.ProviderConfig.Spec pc) in
                      let apiKey := APIKeyOf P data in
                      (k, (Some (external.mk svc http.Client.mk apiBase apiKey), None))
                  end
              end
          end
      end
  end.

End Connector.

Section External.
Context {P : Platform}.

Definition Observe (c : external.t) (mg : resource.Managed) (w : World.t P) : resource.Managed * World.t P * (managed.ExternalObservation.t * option error) :=
  match mg with
  | resource.Managed_Team _ =>
      (mg, w, (managed.ExternalObservation.zero, Some (errors.New errNotKey)))
  | resource.Managed_Key cr =>
      let w := fmt.Printf "Observing: %+v" cr w in
      (mg, w, (managed.ExternalObservation.mk true true false (Some ∅), None))
  end.

(** The request payload of [Create]. *)
Definition payload (fp : v1alpha1.KeyParameters.t) : gmap string json.value :=
  list_to_map [
    ("duration", json.String_ (v1alpha1.KeyParameters.Duration fp));
    ("key_alias", json.String_ (v1alpha1.KeyParameters.KeyAlias fp));
    ("key", json.String_ (v1alpha1.KeyParameters.Key fp));
    ("team_id", json.String_ (v1alpha1.KeyParameters.TeamID fp));
    ("user_id", json.String_ (v1alpha1.KeyParameters.UserID fp));
    ("models", json.Strings (v1alpha1.KeyParameters.Models fp));
    ("max_budget", json.Float64 (v1alpha1.KeyParameters.MaxBudget fp));
    ("budget_duration", json.String_ (v1alpha1.KeyParameters.BudgetDuration fp));
    ("metadata", json.StringMap (v1alpha1.KeyParameters.Metadata fp))
  ].

Definition Create (c : external.t) (mg : resource.Managed) (w : World.t P) : resource.Managed * World.t P * (managed.ExternalCreation.t * option error) :=
  match mg with
  | resource.Managed_Team _ =>
      (mg, w, (managed.ExternalCreation.zero, Some (errors.New errNotKey)))
  | resource.Managed_Key cr =>
      match json.Marshal P (payload (v1alpha1.KeySpec.ForProvider (v1alpha1.Key.Spec cr))) with
      | inr err =>
          (mg, w, (managed.ExternalCreation.zero, Some (errors.Wrap err "failed to marshal payload")))
      | inl jsonPayload =>
          match httpc.NewRequest P "POST" (external.apiBase c +:+ "/key/generate") jsonPayload with
          | inr err =>
              (mg, w, (managed.ExternalCreation.zero, Some (errors.Wrap err "failed to create request")))
          | inl req =>
              let req := http.Header_Set req "Content-Type" "application/json" in
              let req := http.Header_Set req "Authorization" ("Bearer " +:+ external.apiKey c) in
              let '(w, resp) := httpc.Do (external.client c) req w in
              match resp with
              | inr err =>
                  (mg, w, (managed.ExternalCreation.zero, Some (errors.Wrap err "failed to create key")))
              | inl resp =>
                  match json_Decode P (http.Response.Body resp) with
                  | inr err =>
                      (mg, w, (managed.ExternalCreation.zero, Some (errors.Wrap err "failed to decode key response")))
                  | inl keyResponse =>
                      let cr := v1alpha1.with_AtProvider (v1alpha1.set_Key (keyResponse.Key keyResponse)) cr in
                      let cr := v1alpha1.with_AtProvider (v1alpha1.set_Expires (metav1.Time.mk (keyResponse.Expires keyResponse))) cr in
                      let cr := v1alpha1.with_AtProvider (v1alpha1.set_UserID (keyResponse.UserID keyResponse)) cr in
                      let cr := v1alpha1.with_AtProvider (v1alpha1.set_Status (keyResponse.Status keyResponse)) cr in
                      (resource.Managed_Key cr, w,
                       (managed.ExternalCreation.mk
                          (Some {[ "key" := bytes_of_string (keyResponse.Key keyResponse) ]}),
                        None))
                  end
              end
          end
      end
  end.

Definition Update (c : external.t) (mg : resource.Managed) (w : World.t P) : resource.Managed * World.t P * (managed.ExternalUpdate.t * option error) :=
  match mg with
  | resource.Managed_Team _ =>
      (mg, w, (managed.ExternalUpdate.zero, Some (errors.New errNotKey)))
  | resource.Managed_Key cr =>
      let w := fmt.Printf "Updating: %+v" cr w in
      (mg, w, (managed.ExternalUpdate.mk (Some ∅), None))
  end.

Definition Delete (c : external.t) (mg : resource.Managed) (w : World.t P) : resource.Managed * World.t P * option error :=
  match mg with
  | resource.Managed_Team _ => (mg, w, Some (errors.New errNotKey))
  | resource.Managed_Key cr =>
      let w := fmt.Printf "Deleting: %+v" cr w in
      (mg, w, None)
  end.

End External.

End key.

(** ** Derived notions used by the statements *)

Module props.

Import key.

(** [n] calls of [Delete] in a row on the same record, with the error each
    call returned. *)
Fixpoint Delete_times {P : Platform} (n : nat) (c : external.t) (mg : resource.Managed) (w : World.t P) : resource.Managed * World.t P * list (option error) :=
  match n with
  | O => (mg, w, [])
  | S n' =>
      let '(mg1, w1, err) := Delete c mg w in
      let '(mg2, w2, errs) := Delete_times n' c mg1 w1 in
      (mg2, w2, err :: errs)
  end.

(** The byte strings held by the fields of [status.atProvider]. *)
Definition atProvider_bytes (cr : v1alpha1.Key.t) : list bytes :=
  let o := v1alpha1.KeyStatus.AtProvider (v1alpha1.Key.Status cr) in
  [ bytes_of_string (v1alpha1.KeyObservation.Key o);
    bytes_of_string (v1alpha1.KeyObservation.UserID o);
    bytes_of_string (v1alpha1.KeyObservation.Status o) ].

(** No secret of the connection details is the content of a field of
    [status.atProvider]. *)
Definition no_secret_on_record (cr : v1alpha1.Key.t) (cd : managed.ConnectionDetails) : Prop :=
  forall (m : gmap string bytes) (name : string) (secret : bytes),
    cd = Some m -> m !! name = Some secret -> secret ∉ atProvider_bytes cr.

(** Two records that agree on everything but [status.atProvider]. *)
Definition same_but_atProvider (a b : v1alpha1.Key.t) : Prop :=
  v1alpha1.Key.TypeMeta a = v1alpha1.Key.TypeMeta b /\
  v1alpha1.Key.ObjectMeta a = v1alpha1.Key.ObjectMeta b /\
  v1alpha1.Key.Spec a = v1alpha1.Key.Spec b /\
  v1alpha1.KeyStatus.ResourceStatus (v1alpha1.Key.Status a) =
  v1alpha1.KeyStatus.ResourceStatus (v1alpha1.Key.Status b).

(** The record a successful [Create] leaves behind: everything as before
    but [status.atProvider], which holds the decoded response. *)
Definition created (cr : v1alpha1.Key.t) (kr : keyResponse.t) : v1alpha1.Key.t :=
  v1alpha1.Key.mk (v1alpha1.Key.TypeMeta cr) (v1alpha1.Key.ObjectMeta cr) (v1alpha1.Key.Spec cr)
    (v1alpha1.KeyStatus.mk
       (v1alpha1.KeyStatus.ResourceStatus (v1alpha1.Key.Status cr))
       (v1alpha1.KeyObservation.mk (keyResponse.Key kr)
          (metav1.Time.mk (keyResponse.Expires kr))
          (keyResponse.UserID kr) (keyResponse.Status kr))).

(** The request [Create] sends for the parameters [fp] once the payload has
    been marshalled to [body]. *)
Definition generate_request (c : external.t) (body : bytes) : http.Request.t :=
  http.Request.mk "POST" (external.apiBase c +:+ "/key/generate")
    {[ "Content-Type" := ["application/json"];
       "Authorization" := ["Bearer " +:+ external.apiKey c] ]}
    body.

(** The JSON object with the nine members of the payload, in key order. *)
Definition generate_body (P : Platform) (fp : v1alpha1.KeyParameters.t) : string :=
  json.object P [
    ("budget_duration", json_quote P (v1alpha1.KeyParameters.BudgetDuration fp));
    ("duration", json_quote P (v1alpha1.KeyParameters.Duration fp));
    ("key", json_quote P (v1alpha1.KeyParameters.Key fp));
    ("key_alias", json_quote P (v1alpha1.KeyParameters.KeyAlias fp));
    ("max_budget", json_number P (v1alpha1.KeyParameters.MaxBudget fp));
    ("metadata",
       match v1alpha1.KeyParameters.Metadata fp with
       | None => "null"
       | Some m => json.object P (json.sort_by_key (map_to_list (json_quote P <$> m)))
       end);
    ("models",
       match v1alpha1.KeyParameters.Models fp with
       | None => "null"
       | Some l => json.array (map (json_quote P) l)
       end);
    ("team_id", json_quote P (v1alpha1.KeyParameters.TeamID fp));
    ("user_id", json_quote P (v1alpha1.KeyParameters.UserID fp))
  ].

(** The five steps of [Connect] and the message each failure carries. *)
Inductive ConnectStep : Type :=
| TypeCheck
| TrackUsage
| FetchProviderConfig
| ResolveCredentials
| ConstructClient.

Definition step_message (s : ConnectStep) : string :=
  match s with
  | TypeCheck => errNotKey
  | TrackUsage => errTrackPCUsage
  | FetchProviderConfig => errGetPC
  | ResolveCredentials => errGetCreds
  | ConstructClient => errNewClient
  end.

(** The collaborators that have been called when step [s] fails. *)
Definition called_until (s : ConnectStep) : list Step :=
  match s with
  | TypeCheck => []
  | TrackUsage => [StepTrack]
  | FetchProviderConfig => [StepTrack; StepGetPC]
  | ResolveCredentials => [StepTrack; StepGetPC; StepGetCreds]
  | ConstructClient => [StepTrack; StepGetPC; StepGetCreds; StepNewService]
  end.

(** The error a failure of step [s] with cause [cause] is reported as. *)
Definition step_error (s : ConnectStep) (cause : error) : error :=
  match s with
  | TypeCheck => errors.New errNotKey
  | _ => errors.Wrap cause (step_message s)
  end.

(** The steps of the connector as the design describes them: after the
    type check, usage tracking, fetching the ProviderConfig, resolving the
    credentials and constructing the client are tried in this order, each on
    the results of the steps before it.  The result is the first step that
    fails, with the error of the collaborator, or nothing when all of them
    succeed. *)
Definition first_failure {P : Platform} (c : connector.t P) (cr : v1alpha1.Key.t) (k : Kube.t P) : option (ConnectStep * error) :=
  match Tracker.Track (connector.usage c) (Kube.cluster k) (resource.Managed_Key cr) with
  | (_, Some e) => Some (TrackUsage, e)
  | (cl, None) =>
      match client.Client.Get (connector.kube c) cl
              (xpv1.Reference.Name (v1alpha1.GetProviderConfigReference cr)) with
      | inr e => Some (FetchProviderConfig, e)
      | inl pc =>
          let cd := apisv1alpha1.ProviderConfigSpec.Credentials (apisv1alpha1.ProviderConfig.Spec pc) in
          match CommonCredentialExtractor P (connector.kube c) cl
                  (apisv1alpha1.ProviderCredentials.Source cd)
                  (apisv1alpha1.ProviderCredentials.CommonCredentialSelectors cd) with
          | inr e => Some (ResolveCredentials, e)
          | inl data =>
              match connector.newServiceFn c data with
              | (_, Some e) => Some (ConstructClient, e)
              | (_, None) => None
              end
          end
      end
  end.

(** Two worlds that differ at most in what was written to standard output:
    the remote service and the requests sent are the same. *)
Definition same_outside {P : Platform} (w1 w2 : World.t P) : Prop :=
  World.remote w1 = World.remote w2 /\ World.wire w1 = World.wire w2.

End props.

(** ** A concrete platform and concrete records

    A small LiteLLM stand-in on which the statements below are exercised:
    the service counts the keys it has issued and always answers with the
    same key; a URL without a scheme cannot be reached. *)

Module demo.

Import key.

Definition dquote : string := String "034"%char EmptyString.

Definition quote (s : string) : string := dquote +:+ s +:+ dquote.

Definition zeroTime : time.Time.t := time.Time.mk 0.

Definition issued : keyResponse.t :=
  keyResponse.mk "sk-123" zeroTime EmptyString "generated".

Definition answer : string :=
  "{" +:+ quote "key" +:+ ":" +:+ quote "sk-123" +:+ "," +:+
  quote "status" +:+ ":" +:+ quote "generated" +:+ "}".

Definition decode (body : bytes) : keyResponse.t + error :=
  if String.eqb (string_of_list_byte body) answer then inl issued
  else inr (errors.New "EOF").

Definition roundTrip (issuedSoFar : nat) (req : http.Request.t) : nat * (http.Response.t + error) :=
  if String.eqb (http.Request.URL req) "/key/generate"
  then (issuedSoFar, inr (errors.New "unsupported protocol scheme"))
  else (S issuedSoFar, inl (http.Response.mk 200 (bytes_of_string answer))).

Definition extract (_ : client.Client.t (gmap string apisv1alpha1.ProviderConfig.t))
    (_ : gmap string apisv1alpha1.ProviderConfig.t)
    (source : xpv1.CredentialsSource) (_ : xpv1.CommonCredentialSelectors.t) : bytes + error :=
  if String.eqb source "Secret" then inl (bytes_of_string "sk-master")
  else inr (errors.New "no extraction handler registered for source").

Definition platform : Platform := {|
  json_quote := quote;
  json_number := fun _ => "0";
  json_Decode := decode;
  url_Parse := fun _ => None;
  Remote := nat;
  RoundTrip := roundTrip;
  Cluster := gmap string apisv1alpha1.ProviderConfig.t;
  CommonCredentialExtractor := extract;
  APIKeyOf := string_of_list_byte
|}.

Definition noMeta : metav1.ObjectMeta.t := metav1.ObjectMeta.mk "k1" None [] None.

Definition noStatus : v1alpha1.KeyStatus.t :=
  v1alpha1.KeyStatus.mk (xpv1.ResourceStatus.mk [])
    (v1alpha1.KeyObservation.mk EmptyString (metav1.Time.mk zeroTime) EmptyString EmptyString).

Definition params (maxBudget : float64) : v1alpha1.KeyParameters.t :=
  v1alpha1.KeyParameters.mk "24h" "svc-a" EmptyString EmptyString EmptyString
    None maxBudget EmptyString None.

Definition keyWith (maxBudget : float64) : v1alpha1.Key.t :=
  v1alpha1.Key.mk (metav1.TypeMeta.mk "Key" "key.litellm.crossplane.io/v1alpha1") noMeta
    (v1alpha1.KeySpec.mk (xpv1.ResourceSpec.mk (xpv1.Reference.mk "pc1")) (params maxBudget))
    noStatus.

(** The record [k1] of the scenario: duration 24h, alias svc-a. *)
Definition k1 : v1alpha1.Key.t := keyWith (S754_zero false).

(** The same record with a budget that is not a number. *)
Definition kNaN : v1alpha1.Key.t := keyWith S754_nan.

(** [k1] after a key has been issued for it. *)
Definition k1Issued : v1alpha1.Key.t := props.created k1 issued.

Definition team1 : v1alpha1.Team.t :=
  v1alpha1.Team.mk (metav1.TypeMeta.mk "Team" "team.litellm.crossplane.io/v1alpha1")
    (metav1.ObjectMeta.mk "t1" None [] None)
    (v1alpha1.TeamSpec.mk (xpv1.ResourceSpec.mk (xpv1.Reference.mk "pc1"))
       (v1alpha1.TeamParameters.mk EmptyString))
    (v1alpha1.TeamStatus.mk (xpv1.ResourceStatus.mk []) (v1alpha1.TeamObservation.mk EmptyString)).

Definition client1 : external.t :=
  external.mk (Service_NoOp NoOpService.mk) http.Client.mk "http://litellm:4000" "sk-master".

(** A client whose API base is empty, so that its requests cannot be sent. *)
Definition clientNoBase : external.t :=
  external.mk (Service_NoOp NoOpService.mk) http.Client.mk EmptyString "sk-master".

Definition world0 : World.t platform := World.mk (0%nat : Remote platform) [] [].

Definition pc1 : apisv1alpha1.ProviderConfig.t :=
  apisv1alpha1.ProviderConfig.mk (metav1.ObjectMeta.mk "pc1" None [] None)
    (apisv1alpha1.ProviderConfigSpec.mk
       (apisv1alpha1.ProviderCredentials.mk "Secret"
          (xpv1.CommonCredentialSelectors.mk None None (Some ("litellm", "crossplane-system", "credentials"))))
       "http://litellm:4000").

Definition kubeClient : client.Client.t (Cluster platform) :=
  client.Client.mk (fun (cl : gmap string apisv1alpha1.ProviderConfig.t) name =>
    match cl !! name with
    | Some pc => inl pc
    | None => inr (errors.New "ProviderConfig not found")
    end).

Definition tracker : Tracker.t platform :=
  Tracker.mk (fun (cl : Cluster platform) _ => (cl, None)).

Definition connector1 : connector.t platform :=
  connector.mk kubeClient tracker newNoOpService.

(** A cluster without any ProviderConfig, and one that holds [pc1]. *)
Definition kubeEmpty : Kube.t platform :=
  @Kube.mk platform (∅ : gmap string apisv1alpha1.ProviderConfig.t) [].

Definition kubeWithPc1 : Kube.t platform :=
  @Kube.mk platform ({[ "pc1" := pc1 ]} : gmap string apisv1alpha1.ProviderConfig.t) [].

End demo.

(** ** The wiring of Setup, sequences of calls and variations *)

Module wiring.

Import key.

(** The connector [Setup] hands to the reconciler: the manager's client, a
    usage tracker built on that same client, and [newNoOpService] as the
    function that constructs the service. *)
Definition Setup_connector {P : Platform} (kube : client.Client.t (Cluster P)) (NewProviderConfigUsageTracker : client.Client.t (Cluster P) -> Tracker.t P) : connector.t P :=
  connector.mk kube (NewProviderConfigUsageTracker kube) newNoOpService.

(** The three methods of the external client that take no part in issuing
    a key. *)
Inductive Op : Type :=
| OpObserve
| OpUpdate
| OpDelete.

(** One call, keeping the error it returned. *)
Definition run_op {P : Platform} (c : external.t) (o : Op) (mg : resource.Managed) (w : World.t P) : resource.Managed * World.t P * option error :=
  match o with
  | OpObserve => let '(mg', w', (_, err)) := Observe c mg w in (mg', w', err)
  | OpUpdate => let '(mg', w', (_, err)) := Update c mg w in (mg', w', err)
  | OpDelete => Delete c mg w
  end.

(** A sequence of calls on the same record, each on the record and the
    world the call before it left. *)
Fixpoint run_ops {P : Platform} (c : external.t) (ops : list Op) (mg : resource.Managed) (w : World.t P) : resource.Managed * World.t P * list (option error) :=
  match ops with
  | [] => (mg, w, [])
  | o :: ops' =>
      let '(mg1, w1, err) := run_op c o mg w in
      let '(mg2, w2, errs) := run_ops c ops' mg1 w1 in
      (mg2, w2, err :: errs)
  end.

(** The stages of [Create] that can fail on a Key record, with the message
    each failure is wrapped in. *)
Inductive CreateStage : Type :=
| MarshalPayload
| BuildRequest
| SendRequest
| DecodeResponse.

Definition stage_message (s : CreateStage) : string :=
  match s with
  | MarshalPayload => "failed to marshal payload"
  | BuildRequest => "failed to create request"
  | SendRequest => "failed to create key"
  | DecodeResponse => "failed to decode key response"
  end.

(** The platform [P] with the status code of every answer of the service
    replaced by [f] of it; bodies, failures and the state of the service are
    as in [P]. *)
Definition with_status (f : Z -> Z) (P : Platform) : Platform := {|
  json_quote := json_quote P;
  json_number := json_number P;
  json_Decode := json_Decode P;
  url_Parse := url_Parse P;
  Remote := Remote P;
  RoundTrip := fun r req =>
    let out := RoundTrip P r req in
    (fst out,
     match snd out with
     | inl resp => inl (http.Response.mk (f (http.Response.StatusCode resp)) (http.Response.Body resp))
     | inr err => inr err
     end);
  Cluster := Cluster P;
  CommonCredentialExtractor := CommonCredentialExtractor P;
  APIKeyOf := APIKeyOf P
|}.

(** The same world, seen from the platform with the changed status codes. *)
Definition world_with_status (f : Z -> Z) {P : Platform} (w : World.t P) : World.t (with_status f P) :=
  @World.mk (with_status f P) (World.remote w) (World.wire w) (World.stdout w).

End wiring.

(** ** More concrete cases *)

Module cases.

Import key.

(** A service that answers every request with an empty body and the status
    502, which the decoder rejects. *)
Definition badGateway (issuedSoFar : nat) (_ : http.Request.t) : nat * (http.Response.t + error) :=
  (issuedSoFar, inl (http.Response.mk 502 [])).

Definition brokenPlatform : Platform := {|
  json_quote := demo.quote;
  json_number := fun _ => "0";
  json_Decode := demo.decode;
  url_Parse := fun _ => None;
  Remote := nat;
  RoundTrip := badGateway;
  Cluster := gmap string apisv1alpha1.ProviderConfig.t;
  CommonCredentialExtractor := demo.extract;
  APIKeyOf := string_of_list_byte
|}.

Definition brokenWorld : World.t brokenPlatform := World.mk (0%nat : Remote brokenPlatform) [] [].

(** A client with another API key than [demo.client1], for the same base. *)
Definition client2 : external.t :=
  external.mk (Service_NoOp NoOpService.mk) http.Client.mk "http://litellm:4000" "sk-other".

(** The connector of [Setup] on the concrete cluster client; the tracker
    built on a client records nothing. *)
Definition setupConnector : connector.t demo.platform :=
  wiring.Setup_connector demo.kubeClient (fun _ => demo.tracker).

(** The world after the first successful [Create] of the scenario. *)
Definition world1 : World.t demo.platform :=
  snd (fst (Create demo.client1 (resource.Managed_Key demo.k1) demo.world0)).

(** The first check of [url.Parse]: a URL with an ASCII control character
    is rejected. *)
Fixpoint hasControlByte (s : string) : bool :=
  match s with
  | EmptyString => false
  | String ch rest =>
      (N_of_ascii ch <? 32)%N || (N_of_ascii ch =? 127)%N || hasControlByte rest
  end.

Definition parseStrict (url : string) : option error :=
  if hasControlByte url
  then Some (errors.New "net/url: invalid control character in URL")
  else None.

(** The concrete platform with that check of the URL. *)
Definition strictPlatform : Platform := {|
  json_quote := demo.quote;
  json_number := fun _ => "0";
  json_Decode := demo.decode;
  url_Parse := parseStrict;
  Remote := nat;
  RoundTrip := demo.roundTrip;
  Cluster := gmap string apisv1alpha1.ProviderConfig.t;
  CommonCredentialExtractor := demo.extract;
  APIKeyOf := string_of_list_byte
|}.

Definition strictWorld : World.t strictPlatform := World.mk (0%nat : Remote strictPlatform) [] [].

(** A client whose API base ends in a line feed. *)
Definition clientBadBase : external.t :=
  external.mk (Service_NoOp NoOpService.mk) http.Client.mk
    ("http://litellm:4000" +:+ String "010"%char EmptyString) "sk-master".

End cases.

(** * Properties *)

Import key props.

(** ** Auxiliary facts about the model *)

(** The payload has exactly the nine members of the source literal. *)
Lemma payload_dom (fp : v1alpha1.KeyParameters.t) :
  dom (payload fp) =
  {[ "duration"; "key_alias"; "key"; "team_id"; "user_id"; "models";
     "max_budget"; "budget_duration"; "metadata" ]}.
Proof.
  unfold payload. simpl. rewrite !dom_insert_L, dom_empty_L. set_solver.
Qed.

(** Marshalling the payload fails exactly on a budget that is NaN or
    infinite, and otherwise writes the nine members in key order. *)
Lemma Marshal_payload (P : Platform) (fp : v1alpha1.KeyParameters.t) :
  json.Marshal P (payload fp) =
  if math.IsInf (v1alpha1.KeyParameters.MaxBudget fp) || math.IsNaN (v1alpha1.KeyParameters.MaxBudget fp)
  then inr (json.unsupported (v1alpha1.KeyParameters.MaxBudget fp))
  else inl (bytes_of_string (generate_body P fp)).
Proof.
  destruct fp as [d ka k t u ms mb bd md].
  destruct mb, ms, md; vm_compute; reflexivity.
Qed.

(** The two [Header.Set] calls of [Create] build the header of
    [generate_request]. *)
Lemma generate_headers (c : external.t) (body : bytes) :
  http.Header_Set
    (http.Header_Set (http.Request.mk "POST" (external.apiBase c +:+ "/key/generate") ∅ body)
       "Content-Type" "application/json")
    "Authorization" ("Bearer " +:+ external.apiKey c)
  = generate_request c body.
Proof.
  unfold http.Header_Set, generate_request. simpl.
  rewrite insert_insert_ne by discriminate.
  rewrite insert_empty. reflexivity.
Qed.

(** [Create] on a Key record, path by path. *)
Lemma Create_Key {P : Platform} (c : external.t) (cr : v1alpha1.Key.t) (w : World.t P) :
  Create c (resource.Managed_Key cr) w =
  let fp := v1alpha1.KeySpec.ForProvider (v1alpha1.Key.Spec cr) in
  let mb := v1alpha1.KeyParameters.MaxBudget fp in
  if math.IsInf mb || math.IsNaN mb then
    (resource.Managed_Key cr, w,
     (managed.ExternalCreation.zero,
      Some (errors.Wrap (json.unsupported mb) "failed to marshal payload")))
  else
    match url_Parse P (external.apiBase c +:+ "/key/generate") with
    | Some err =>
        (resource.Managed_Key cr, w,
         (managed.ExternalCreation.zero, Some (errors.Wrap err "failed to create request")))
    | None =>
        let req := generate_request c (bytes_of_string (generate_body P fp)) in
        let out := RoundTrip P (World.remote w) req in
        let w' := World.mk (fst out) (World.wire w ++ [req]) (World.stdout w) in
        match snd out with
        | inr err =>
            (resource.Managed_Key cr, w',
             (managed.ExternalCreation.zero, Some (errors.Wrap err "failed to create key")))
        | inl resp =>
            match json_Decode P (http.Response.Body resp) with
            | inr err =>
                (resource.Managed_Key cr, w',
                 (managed.ExternalCreation.zero,
                  Some (errors.Wrap err "failed to decode key response")))
            | inl kr =>
                (resource.Managed_Key (created cr kr), w',
                 (managed.ExternalCreation.mk
                    (Some {[ "key" := bytes_of_string (keyResponse.Key kr) ]}),
                  None))
            end
        end
    end.
Proof.
  unfold Create. rewrite Marshal_payload. cbv zeta.
  destruct (math.IsInf _ || math.IsNaN _); [reflexivity|].
  unfold httpc.NewRequest.
  destruct (url_Parse P _) as [err|]; [reflexivity|].
  rewrite generate_headers. unfold httpc.Do.
  destruct (RoundTrip P _ _) as [r [resp|err]]; simpl; [|reflexivity].
  destruct (json_Decode P _) as [kr|err]; reflexivity.
Qed.

(** The successful path of [Create]: the request was answered, the answer
    decoded, and the results are built from the decoded answer alone. *)
Lemma Create_Key_success {P : Platform} (c : external.t) (cr : v1alpha1.Key.t) (w w' : World.t P) (mg' : resource.Managed) (cre : managed.ExternalCreation.t) :
  Create c (resource.Managed_Key cr) w = (mg', w', (cre, None)) ->
  let req :=
    generate_request c
      (bytes_of_string (generate_body P (v1alpha1.KeySpec.ForProvider (v1alpha1.Key.Spec cr)))) in
  exists (resp : http.Response.t) (kr : keyResponse.t),
    snd (RoundTrip P (World.remote w) req) = inl resp /\
    json_Decode P (http.Response.Body resp) = inl kr /\
    mg' = resource.Managed_Key (created cr kr) /\
    w' = World.mk (fst (RoundTrip P (World.remote w) req)) (World.wire w ++ [req]) (World.stdout w) /\
    cre = managed.ExternalCreation.mk (Some {[ "key" := bytes_of_string (keyResponse.Key kr) ]}).
Proof.
  rewrite Create_Key. cbv zeta.
  destruct (math.IsInf _ || math.IsNaN _); [discriminate|].
  destruct (url_Parse P _); [discriminate|].
  destruct (snd (RoundTrip P _ _)) as [resp|err] eqn:Hresp; [|discriminate].
  destruct (json_Decode P _) as [kr|err] eqn:Hkr; [|discriminate].
  intros H. injection H as <- <- <-.
  exists resp, kr. repeat split; assumption.
Qed.

(** The text of an error that wraps a cause starts with the wrapping
    message, so two such errors whose messages differ at some position
    differ as texts. *)
Lemma Error_Wrap (cause : error) (msg : string) :
  errors.Error (errors.Wrap cause msg) = msg +:+ ": " +:+ errors.Error cause.
Proof. reflexivity. Qed.

(** ** Observe *)

(** C2: for every record of kind Key, whatever the client and the state of
    the world, [Observe] reports that the resource exists and is up to date,
    returns an empty (non-nil) connection details map and no error.  The
    result is a constant: it depends neither on the desired parameters nor
    on anything observed. *)
Theorem Observe_Key_exists_up_to_date {P : Platform} (c : external.t) (cr : v1alpha1.Key.t) (w : World.t P) :
  let result := snd (Observe c (resource.Managed_Key cr) w) in
  managed.ExternalObservation.ResourceExists (fst result) = true /\
  managed.ExternalObservation.ResourceUpToDate (fst result) = true /\
  managed.ExternalObservation.ConnectionDetails (fst result) = Some ∅ /\
  snd result = None.
Proof. cbn. repeat split. Qed.

(** ** Frame: Observe, Update and Delete do not touch the record *)

(** C10: on a Key record, [Observe], [Update] and [Delete] return the record
    as they received it, and [Observe] and [Update] return an empty
    connection details map. *)
Theorem Observe_Update_Delete_frame {P : Platform} (c : external.t) (cr : v1alpha1.Key.t) (w : World.t P) :
  fst (fst (Observe c (resource.Managed_Key cr) w)) = resource.Managed_Key cr /\
  fst (fst (Update c (resource.Managed_Key cr) w)) = resource.Managed_Key cr /\
  fst (fst (Delete c (resource.Managed_Key cr) w)) = resource.Managed_Key cr /\
  managed.ExternalObservation.ConnectionDetails (fst (snd (Observe c (resource.Managed_Key cr) w))) = Some ∅ /\
  managed.ExternalUpdate.ConnectionDetails (fst (snd (Update c (resource.Managed_Key cr) w))) = Some ∅.
Proof. cbn. repeat split. Qed.

(** ** Delete *)

(** One [Delete] on a Key record: success, the record and the remote
    service as before, no request sent. *)
Lemma Delete_Key {P : Platform} (c : external.t) (cr : v1alpha1.Key.t) (w : World.t P) :
  Delete c (resource.Managed_Key cr) w =
  (resource.Managed_Key cr, fmt.Printf "Deleting: %+v" cr w, None).
Proof. reflexivity. Qed.

(** C7: any number of [Delete] calls in a row on a Key record all succeed,
    whatever the state of the remote service (the external resource may
    exist or be absent); the record is left as it was, and so is the remote
    service, to which nothing is sent. *)
Theorem Delete_idempotent {P : Platform} (n : nat) (c : external.t) (cr : v1alpha1.Key.t) (w : World.t P) :
  let run := Delete_times n c (resource.Managed_Key cr) w in
  snd run = repeat None n /\
  fst (fst run) = resource.Managed_Key cr /\
  World.remote (snd (fst run)) = World.remote w /\
  World.wire (snd (fst run)) = World.wire w.
Proof.
  cbv zeta. revert w.
  induction n as [|n IH]; intros w.
  - cbn. repeat split.
  - cbn [Delete_times]. rewrite Delete_Key.
    specialize (IH (fmt.Printf "Deleting: %+v" cr w)).
    destruct (Delete_times n c (resource.Managed_Key cr) (fmt.Printf "Deleting: %+v" cr w))
      as [[mg2 w2] errs].
    cbn in *. destruct IH as (Herrs & Hmg & Hremote & Hwire).
    repeat split; congruence.
Qed.

(** ** Create *)

(** C9: whenever [Create] returns an error, for a record of any kind, the
    record is returned exactly as it was received.  The status is written
    only after the response has been decoded: when the record returned
    differs from the one received, the record is a Key, the service answered
    the generate request, the answer decoded to some [kr], the record
    returned is the received one with [status.atProvider] taken from [kr],
    and no error is returned. *)
Theorem Create_error_leaves_record {P : Platform} (c : external.t) (mg : resource.Managed) (w : World.t P) (e : error) :
  (snd (snd (Create c mg w)) = Some e ->
   fst (fst (Create c mg w)) = mg) /\
  (fst (fst (Create c mg w)) <> mg ->
   exists (cr : v1alpha1.Key.t) (resp : http.Response.t) (kr : keyResponse.t),
     mg = resource.Managed_Key cr /\
     snd (RoundTrip P (World.remote w)
            (generate_request c
               (bytes_of_string (generate_body P (v1alpha1.KeySpec.ForProvider (v1alpha1.Key.Spec cr))))))
     = inl resp /\
     json_Decode P (http.Response.Body resp) = inl kr /\
     fst (fst (Create c mg w)) = resource.Managed_Key (created cr kr) /\
     snd (snd (Create c mg w)) = None).
Proof.
  destruct mg as [cr|t].
  2: { split; [reflexivity|]. intros H. exfalso. apply H. reflexivity. }
  rewrite Create_Key. cbv zeta.
  destruct (math.IsInf _ || math.IsNaN _).
  { split; [reflexivity|]. intros H. exfalso. apply H. reflexivity. }
  destruct (url_Parse P _).
  { split; [reflexivity|]. intros H. exfalso. apply H. reflexivity. }
  destruct (snd (RoundTrip P _ _)) as [resp|err] eqn:Hresp.
  2: { split; [reflexivity|]. intros H. exfalso. apply H. reflexivity. }
  destruct (json_Decode P _) as [kr|err] eqn:Hkr.
  2: { split; [reflexivity|]. intros H. exfalso. apply H. reflexivity. }
  split.
  - cbn [snd]. discriminate.
  - intros _. exists cr, resp, kr. repeat split; assumption.
Qed.

Lemma Create_error_leaves_record_witness :
  snd (snd (Create demo.clientNoBase (resource.Managed_Key demo.k1Issued) demo.world0))
  = Some (errors.Wrap (errors.New "unsupported protocol scheme") "failed to create key") /\
  fst (fst (Create demo.clientNoBase (resource.Managed_Key demo.k1Issued) demo.world0))
  = resource.Managed_Key demo.k1Issued.
Proof.
  split.
  - vm_compute. reflexivity.
  - apply (proj1 (Create_error_leaves_record demo.clientNoBase (resource.Managed_Key demo.k1Issued)
                    demo.world0
                    (errors.Wrap (errors.New "unsupported protocol scheme") "failed to create key"))).
    vm_compute. reflexivity.
Defined.

(** C5: when [Create] succeeds on a Key record, the service answered the
    request and its answer decoded to some [kr]; the four fields of
    [status.atProvider] are then exactly the four values of [kr], whatever
    they held before, the rest of the record is as before, and the returned
    connection details map the name key to the bytes of [kr]'s key. *)
Theorem Create_success_overwrites_status {P : Platform} (c : external.t) (cr : v1alpha1.Key.t) (w w' : World.t P) (mg' : resource.Managed) (cre : managed.ExternalCreation.t) :
  Create c (resource.Managed_Key cr) w = (mg', w', (cre, None)) ->
  exists (resp : http.Response.t) (kr : keyResponse.t) (cr' : v1alpha1.Key.t),
    snd (RoundTrip P (World.remote w)
           (generate_request c
              (bytes_of_string (generate_body P (v1alpha1.KeySpec.ForProvider (v1alpha1.Key.Spec cr))))))
    = inl resp /\
    json_Decode P (http.Response.Body resp) = inl kr /\
    mg' = resource.Managed_Key cr' /\
    v1alpha1.KeyStatus.AtProvider (v1alpha1.Key.Status cr') =
      v1alpha1.KeyObservation.mk (keyResponse.Key kr) (metav1.Time.mk (keyResponse.Expires kr))
        (keyResponse.UserID kr) (keyResponse.Status kr) /\
    cr' = created cr kr /\
    managed.ExternalCreation.ConnectionDetails cre =
      Some {[ "key" := bytes_of_string (keyResponse.Key kr) ]}.
Proof.
  intros H.
  apply Create_Key_success in H as (resp & kr & Hresp & Hkr & -> & _ & ->).
  exists resp, kr, (created cr kr). repeat split; assumption.
Qed.

Lemma Create_success_overwrites_status_witness :
  exists (resp : http.Response.t) (kr : keyResponse.t) (cr' : v1alpha1.Key.t),
    snd (RoundTrip demo.platform (World.remote demo.world0)
           (generate_request demo.client1
              (bytes_of_string (generate_body demo.platform
                 (v1alpha1.KeySpec.ForProvider (v1alpha1.Key.Spec demo.k1))))))
    = inl resp /\
    json_Decode demo.platform (http.Response.Body resp) = inl kr /\
    fst (fst (Create demo.client1 (resource.Managed_Key demo.k1) demo.world0)) = resource.Managed_Key cr' /\
    v1alpha1.KeyStatus.AtProvider (v1alpha1.Key.Status cr') =
      v1alpha1.KeyObservation.mk (keyResponse.Key kr) (metav1.Time.mk (keyResponse.Expires kr))
        (keyResponse.UserID kr) (keyResponse.Status kr) /\
    cr' = created demo.k1 kr /\
    managed.ExternalCreation.ConnectionDetails
      (fst (snd (Create demo.client1 (resource.Managed_Key demo.k1) demo.world0))) =
      Some {[ "key" := bytes_of_string (keyResponse.Key kr) ]}.
Proof.
  apply (Create_success_overwrites_status demo.client1 demo.k1 demo.world0
           (snd (fst (Create demo.client1 (resource.Managed_Key demo.k1) demo.world0)))
           (fst (fst (Create demo.client1 (resource.Managed_Key demo.k1) demo.world0)))
           (fst (snd (Create demo.client1 (resource.Managed_Key demo.k1) demo.world0)))).
  vm_compute. reflexivity.
Defined.

(** ** Records of another kind *)

(** Every error [Create] returns on a Key record is a wrapped error whose
    text starts with one of four messages of the form failed to ...; the
    other three methods return no error on a Key record. *)
Lemma Create_Key_error_text {P : Platform} (c : external.t) (cr : v1alpha1.Key.t) (w : World.t P) (e : error) :
  snd (snd (Create c (resource.Managed_Key cr) w)) = Some e ->
  exists (cause : error) (msg : string),
    e = errors.Wrap cause msg /\
    (msg = "failed to marshal payload" \/ msg = "failed to create request" \/
     msg = "failed to create key" \/ msg = "failed to decode key response").
Proof.
  rewrite Create_Key. cbv zeta.
  destruct (math.IsInf _ || math.IsNaN _).
  { cbn [snd]. intros [= <-]. eauto 6. }
  destruct (url_Parse P _).
  { cbn [snd]. intros [= <-]. eauto 6. }
  destruct (snd (RoundTrip P _ _)) as [resp|err].
  2: { cbn [snd]. intros [= <-]. eauto 7. }
  destruct (json_Decode P _) as [kr|err].
  - cbn [snd]. discriminate.
  - cbn [snd]. intros [= <-]. eauto 8.
Qed.

(** C6: given a record that is not a Key (a Team), each of [Observe],
    [Create], [Update] and [Delete] returns the error made from the message
    managed resource is not a Key custom resource, next to a zero result,
    with the record and the world (remote service, requests sent, output)
    exactly as before.  No error that a method returns on a Key record has
    that text: such errors carry a transport, request, marshalling or
    decoding failure. *)
Theorem not_a_Key_is_rejected {P : Platform} (c : external.t) (t : v1alpha1.Team.t) (w : World.t P) :
  Observe c (resource.Managed_Team t) w =
    (resource.Managed_Team t, w, (managed.ExternalObservation.zero, Some (errors.New errNotKey))) /\
  Create c (resource.Managed_Team t) w =
    (resource.Managed_Team t, w, (managed.ExternalCreation.zero, Some (errors.New errNotKey))) /\
  Update c (resource.Managed_Team t) w =
    (resource.Managed_Team t, w, (managed.ExternalUpdate.zero, Some (errors.New errNotKey))) /\
  Delete c (resource.Managed_Team t) w =
    (resource.Managed_Team t, w, Some (errors.New errNotKey)) /\
  errNotKey = "managed resource is not a Key custom resource" /\
  forall (cr : v1alpha1.Key.t) (e : error),
    snd (snd (Observe c (resource.Managed_Key cr) w)) = Some e \/
    snd (snd (Create c (resource.Managed_Key cr) w)) = Some e \/
    snd (snd (Update c (resource.Managed_Key cr) w)) = Some e \/
    snd (Delete c (resource.Managed_Key cr) w) = Some e ->
    errors.Error e <> errNotKey.
Proof.
  repeat (split; [reflexivity|]).
  intros cr e [H|[H|[H|H]]].
  - cbn in H. discriminate H.
  - apply Create_Key_error_text in H as (cause & msg & He & Hmsg).
    subst e. rewrite Error_Wrap.
    destruct Hmsg as [-> | [-> | [-> | ->]]]; discriminate.
  - cbn in H. discriminate H.
  - cbn in H. discriminate H.
Qed.

Lemma not_a_Key_is_rejected_witness :
  errors.Error (errors.Wrap (errors.New "unsupported protocol scheme") "failed to create key")
  <> errNotKey.
Proof.
  refine (proj2 (proj2 (proj2 (proj2 (proj2
    (not_a_Key_is_rejected demo.clientNoBase demo.team1 demo.world0)))))
    demo.k1 _ _).
  right. left. vm_compute. reflexivity.
Defined.

(** ** Where the issued key goes *)

(** C1 (amended): after a successful [Create] on a Key record the key the
    service issued, that is the key of the decoded answer to the generate
    request, is returned in the connection details, under the name key and
    as their only entry, and the same key is stored in the key field of
    [status.atProvider]. *)
Theorem Create_key_in_details_and_status {P : Platform} (c : external.t) (cr cr' : v1alpha1.Key.t) (w w' : World.t P) (cre : managed.ExternalCreation.t) :
  Create c (resource.Managed_Key cr) w = (resource.Managed_Key cr', w', (cre, None)) ->
  exists (resp : http.Response.t) (kr : keyResponse.t) (secret : bytes),
    snd (RoundTrip P (World.remote w)
           (generate_request c
              (bytes_of_string (generate_body P (v1alpha1.KeySpec.ForProvider (v1alpha1.Key.Spec cr))))))
    = inl resp /\
    json_Decode P (http.Response.Body resp) = inl kr /\
    secret = bytes_of_string (keyResponse.Key kr) /\
    managed.ExternalCreation.ConnectionDetails cre = Some {[ "key" := secret ]} /\
    v1alpha1.KeyObservation.Key (v1alpha1.KeyStatus.AtProvider (v1alpha1.Key.Status cr'))
    = keyResponse.Key kr /\
    bytes_of_string
      (v1alpha1.KeyObservation.Key (v1alpha1.KeyStatus.AtProvider (v1alpha1.Key.Status cr')))
    = secret.
Proof.
  intros H.
  apply Create_Key_success in H as (resp & kr & Hresp & Hkr & Hmg & _ & ->).
  injection Hmg as ->.
  exists resp, kr, (bytes_of_string (keyResponse.Key kr)).
  repeat split; assumption.
Qed.

(** C1 as stated does not hold: on the scenario record, with a service that
    answers with the key sk-123, [Create] succeeds and leaves the issued key
    in [status.atProvider], the very bytes it returns as a secret. *)
Lemma Create_stores_key_on_record :
  snd (snd (Create demo.client1 (resource.Managed_Key demo.k1) demo.world0)) = None /\
  fst (fst (Create demo.client1 (resource.Managed_Key demo.k1) demo.world0))
  = resource.Managed_Key demo.k1Issued /\
  ~ no_secret_on_record demo.k1Issued
      (managed.ExternalCreation.ConnectionDetails
         (fst (snd (Create demo.client1 (resource.Managed_Key demo.k1) demo.world0)))).
Proof.
  split; [vm_compute; reflexivity|].
  split; [vm_compute; reflexivity|].
  intros H.
  apply (H {[ "key" := bytes_of_string "sk-123" ]} "key" (bytes_of_string "sk-123")).
  - vm_compute. reflexivity.
  - apply lookup_singleton_eq.
  - unfold atProvider_bytes. cbn. apply list_elem_of_here.
Qed.

Lemma Create_key_in_details_and_status_witness :
  exists (resp : http.Response.t) (kr : keyResponse.t) (secret : bytes),
    snd (RoundTrip demo.platform (World.remote demo.world0)
           (generate_request demo.client1
              (bytes_of_string (generate_body demo.platform
                 (v1alpha1.KeySpec.ForProvider (v1alpha1.Key.Spec demo.k1))))))
    = inl resp /\
    json_Decode demo.platform (http.Response.Body resp) = inl kr /\
    secret = bytes_of_string (keyResponse.Key kr) /\
    managed.ExternalCreation.ConnectionDetails
      (fst (snd (Create demo.client1 (resource.Managed_Key demo.k1) demo.world0)))
    = Some {[ "key" := secret ]} /\
    v1alpha1.KeyObservation.Key (v1alpha1.KeyStatus.AtProvider (v1alpha1.Key.Status demo.k1Issued))
    = keyResponse.Key kr /\
    bytes_of_string
      (v1alpha1.KeyObservation.Key (v1alpha1.KeyStatus.AtProvider (v1alpha1.Key.Status demo.k1Issued)))
    = secret.
Proof.
  apply (Create_key_in_details_and_status demo.client1 demo.k1 demo.k1Issued demo.world0
           (snd (fst (Create demo.client1 (resource.Managed_Key demo.k1) demo.world0)))).
  vm_compute. reflexivity.
Defined.

(** ** Connect *)

(** The texts of the errors of two different steps differ, whatever their
    causes: the messages already differ before either of them ends. *)
Lemma step_error_text_distinct (s1 s2 : ConnectStep) (cause1 cause2 : error) :
  s1 <> s2 ->
  errors.Error (step_error s1 cause1) <> errors.Error (step_error s2 cause2).
Proof.
  intros Hne.
  destruct s1, s2; try (exfalso; apply Hne; reflexivity); cbn; discriminate.
Qed.

(** C3: [Connect] checks the kind, then tracks the ProviderConfig usage,
    fetches the ProviderConfig, resolves the credentials and constructs the
    client, in this order.  A record of another kind is refused before any
    collaborator is called.  On a Key record the result is decided by the
    first step that fails: the error wraps the collaborator's error with the
    message of that step, no client is returned, and exactly the
    collaborators up to the failing one have been called; when no step
    fails all four have been called, a client is returned and the error is
    nil.  The texts of the errors of different steps are different, and a
    non-nil error never comes with a client. *)
Theorem Connect_steps_in_order {P : Platform} (c : connector.t P) (k : Kube.t P) :
  (forall t : v1alpha1.Team.t,
     Connect c (resource.Managed_Team t) k = (k, (None, Some (errors.New errNotKey)))) /\
  (forall cr : v1alpha1.Key.t,
     let out := Connect c (resource.Managed_Key cr) k in
     match first_failure c cr k with
     | Some (s, cause) =>
         snd (snd out) = Some (errors.Wrap cause (step_message s)) /\
         fst (snd out) = None /\
         Kube.called (fst out) = (Kube.called k ++ called_until s)%list
     | None =>
         snd (snd out) = None /\
         (exists cl : external.t, fst (snd out) = Some cl) /\
         Kube.called (fst out) = (Kube.called k ++ called_until ConstructClient)%list
     end) /\
  (forall (s1 s2 : ConnectStep) (cause1 cause2 : error),
     s1 <> s2 ->
     errors.Error (step_error s1 cause1) <> errors.Error (step_error s2 cause2)) /\
  (forall mg : resource.Managed,
     snd (snd (Connect c mg k)) <> None -> fst (snd (Connect c mg k)) = None).
Proof.
  split; [reflexivity|].
  split.
  { intros cr. cbv zeta. unfold Connect, first_failure, step.
    destruct (Tracker.Track _ _ _) as [cl [e|]]; cbn.
    { repeat split. }
    destruct (client.Client.Get _ _ _) as [pc|e]; cbn.
    2: { rewrite <- app_assoc. repeat split. }
    destruct (CommonCredentialExtractor P _ _ _ _) as [data|e]; cbn.
    2: { rewrite <- !app_assoc. repeat split. }
    destruct (connector.newServiceFn c data) as [svc [e|]]; cbn;
      rewrite <- !app_assoc; repeat split.
    eexists. reflexivity. }
  split; [apply @step_error_text_distinct|].
  intros [cr|t]; [|reflexivity].
  unfold Connect.
  destruct (Tracker.Track _ _ _) as [cl [e|]]; cbn; [reflexivity|].
  destruct (client.Client.Get _ _ _) as [pc|e]; cbn; [|reflexivity].
  destruct (CommonCredentialExtractor P _ _ _ _) as [data|e]; cbn; [|reflexivity].
  destruct (connector.newServiceFn c data) as [svc [e|]]; cbn; [reflexivity|].
  intros H. exfalso. apply H. reflexivity.
Qed.

Lemma Connect_steps_in_order_witness :
  snd (snd (Connect demo.connector1 (resource.Managed_Key demo.k1) demo.kubeEmpty))
  = Some (errors.Wrap (errors.New "ProviderConfig not found") errGetPC) /\
  fst (snd (Connect demo.connector1 (resource.Managed_Key demo.k1) demo.kubeEmpty)) = None /\
  Kube.called (fst (Connect demo.connector1 (resource.Managed_Key demo.k1) demo.kubeEmpty))
  = [StepTrack; StepGetPC].
Proof.
  exact (proj1 (proj2 (Connect_steps_in_order demo.connector1 demo.kubeEmpty)) demo.k1).
Defined.

(** ** The request of Create *)

(** Each member of the payload is the field of [spec.forProvider] of the
    same name. *)
Lemma payload_lookup (fp : v1alpha1.KeyParameters.t) :
  payload fp !! "duration" = Some (json.String_ (v1alpha1.KeyParameters.Duration fp)) /\
  payload fp !! "key_alias" = Some (json.String_ (v1alpha1.KeyParameters.KeyAlias fp)) /\
  payload fp !! "key" = Some (json.String_ (v1alpha1.KeyParameters.Key fp)) /\
  payload fp !! "team_id" = Some (json.String_ (v1alpha1.KeyParameters.TeamID fp)) /\
  payload fp !! "user_id" = Some (json.String_ (v1alpha1.KeyParameters.UserID fp)) /\
  payload fp !! "models" = Some (json.Strings (v1alpha1.KeyParameters.Models fp)) /\
  payload fp !! "max_budget" = Some (json.Float64 (v1alpha1.KeyParameters.MaxBudget fp)) /\
  payload fp !! "budget_duration" = Some (json.String_ (v1alpha1.KeyParameters.BudgetDuration fp)) /\
  payload fp !! "metadata" = Some (json.StringMap (v1alpha1.KeyParameters.Metadata fp)).
Proof.
  destruct fp as [d ka k t u ms mb bd md].
  repeat split; vm_compute; reflexivity.
Qed.

(** C4 as stated does not hold for every Key record: a record whose budget
    is not a number cannot be marshalled, and [Create] then returns the
    marshalling error without sending any request. *)
Lemma Create_NaN_budget_sends_nothing :
  World.wire (snd (fst (Create demo.client1 (resource.Managed_Key demo.kNaN) demo.world0))) = [] /\
  snd (snd (Create demo.client1 (resource.Managed_Key demo.kNaN) demo.world0))
  = Some (errors.Wrap (errors.New "json: unsupported value: NaN") "failed to marshal payload").
Proof. split; vm_compute; reflexivity. Qed.

(** C4 (amended): for a Key record whose budget is neither NaN nor infinite,
    and a URL that [http.NewRequest] accepts, [Create] sends exactly one
    request: a POST to the API base followed by /key/generate, with the
    headers Content-Type: application/json and Authorization: Bearer
    followed by the API key, and with the marshalled payload as body.  In
    all other cases it sends nothing and returns the error of the step
    that failed, wrapped in failed to marshal payload or in failed to create
    request, next to the zero result.  The payload has exactly the nine
    members duration, key_alias, key, team_id, user_id, models, max_budget,
    budget_duration and metadata, each holding the field of
    [spec.forProvider] of that name, and the body is the JSON object of
    these nine members. *)
Theorem Create_sends_one_generate_request {P : Platform} (c : external.t) (cr : v1alpha1.Key.t) (w : World.t P) :
  let fp := v1alpha1.KeySpec.ForProvider (v1alpha1.Key.Spec cr) in
  let mb := v1alpha1.KeyParameters.MaxBudget fp in
  let url := external.apiBase c +:+ "/key/generate" in
  let sent := World.wire (snd (fst (Create c (resource.Managed_Key cr) w))) in
  (math.IsInf mb || math.IsNaN mb = false ->
   url_Parse P url = None ->
   sent = (World.wire w ++
     [ http.Request.mk "POST" url
         {[ "Content-Type" := ["application/json"];
            "Authorization" := ["Bearer " +:+ external.apiKey c] ]}
         (bytes_of_string (generate_body P fp)) ])%list /\
   json.Marshal P (payload fp) = inl (bytes_of_string (generate_body P fp))) /\
  (math.IsInf mb || math.IsNaN mb = true \/ url_Parse P url <> None ->
   sent = World.wire w) /\
  (math.IsInf mb || math.IsNaN mb = true ->
   snd (Create c (resource.Managed_Key cr) w) =
   (managed.ExternalCreation.zero,
    Some (errors.Wrap (json.unsupported mb) "failed to marshal payload"))) /\
  (math.IsInf mb || math.IsNaN mb = false ->
   forall err : error,
     url_Parse P url = Some err ->
     snd (Create c (resource.Managed_Key cr) w) =
     (managed.ExternalCreation.zero, Some (errors.Wrap err "failed to create request"))) /\
  dom (payload fp) =
    {[ "duration"; "key_alias"; "key"; "team_id"; "user_id"; "models";
       "max_budget"; "budget_duration"; "metadata" ]} /\
  payload fp !! "duration" = Some (json.String_ (v1alpha1.KeyParameters.Duration fp)) /\
  payload fp !! "key_alias" = Some (json.String_ (v1alpha1.KeyParameters.KeyAlias fp)) /\
  payload fp !! "key" = Some (json.String_ (v1alpha1.KeyParameters.Key fp)) /\
  payload fp !! "team_id" = Some (json.String_ (v1alpha1.KeyParameters.TeamID fp)) /\
  payload fp !! "user_id" = Some (json.String_ (v1alpha1.KeyParameters.UserID fp)) /\
  payload fp !! "models" = Some (json.Strings (v1alpha1.KeyParameters.Models fp)) /\
  payload fp !! "max_budget" = Some (json.Float64 (v1alpha1.KeyParameters.MaxBudget fp)) /\
  payload fp !! "budget_duration" = Some (json.String_ (v1alpha1.KeyParameters.BudgetDuration fp)) /\
  payload fp !! "metadata" = Some (json.StringMap (v1alpha1.KeyParameters.Metadata fp)).
Proof.
  cbv zeta. rewrite Create_Key. cbv zeta.
  split; [|split; [|split; [|split; [|split; [apply payload_dom|apply payload_lookup]]]]].
  - intros Hmb Hurl. rewrite Marshal_payload, Hmb, Hurl. split; [|reflexivity].
    destruct (snd (RoundTrip P _ _)) as [resp|err]; [|reflexivity].
    destruct (json_Decode P _); reflexivity.
  - intros [Hmb|Hurl].
    + rewrite Hmb. reflexivity.
    + destruct (math.IsInf _ || math.IsNaN _); [reflexivity|].
      destruct (url_Parse P _); [reflexivity|].
      exfalso. apply Hurl. reflexivity.
  - intros Hmb. rewrite Hmb. reflexivity.
  - intros Hmb err Hurl. rewrite Hmb, Hurl. reflexivity.
Qed.

Lemma Create_sends_one_generate_request_witness :
  World.wire (snd (fst (Create demo.client1 (resource.Managed_Key demo.k1) demo.world0)))
  = (World.wire demo.world0 ++
    [ http.Request.mk "POST" (external.apiBase demo.client1 +:+ "/key/generate")
        {[ "Content-Type" := ["application/json"];
           "Authorization" := ["Bearer " +:+ external.apiKey demo.client1] ]}
        (bytes_of_string
           (generate_body demo.platform (v1alpha1.KeySpec.ForProvider (v1alpha1.Key.Spec demo.k1)))) ])%list /\
  json.Marshal demo.platform (payload (v1alpha1.KeySpec.ForProvider (v1alpha1.Key.Spec demo.k1)))
  = inl (bytes_of_string
           (generate_body demo.platform (v1alpha1.KeySpec.ForProvider (v1alpha1.Key.Spec demo.k1)))).
Proof.
  apply (proj1 (Create_sends_one_generate_request demo.client1 demo.k1 demo.world0)).
  - reflexivity.
  - reflexivity.
Defined.

(** The other early return: an API base with a control character is
    refused by [http.NewRequest], and nothing is sent. *)
Example Create_bad_URL_sends_nothing :
  World.wire (snd (fst (Create cases.clientBadBase (resource.Managed_Key demo.k1) cases.strictWorld))) = [] /\
  snd (Create cases.clientBadBase (resource.Managed_Key demo.k1) cases.strictWorld)
  = (managed.ExternalCreation.zero,
     Some (errors.Wrap (errors.New "net/url: invalid control character in URL")
             "failed to create request")).
Proof. split; vm_compute; reflexivity. Qed.

(** ** The observed state is not an input *)

(** C8: the code at the failing input.  The scenario record before and
    after a key was issued for it differs in [status.atProvider] only, yet
    [Observe] hands each of the two records in full to [fmt.Printf], so its
    output differs and the two calls do not behave identically.  The source
    itself says of these print statements that they should be removed. *)
Lemma Observe_prints_atProvider :
  same_but_atProvider demo.k1 demo.k1Issued /\
  World.stdout (snd (fst (Observe demo.client1 (resource.Managed_Key demo.k1) demo.world0)))
  = [PrintCall.mk "Observing: %+v" demo.k1] /\
  World.stdout (snd (fst (Observe demo.client1 (resource.Managed_Key demo.k1Issued) demo.world0)))
  = [PrintCall.mk "Observing: %+v" demo.k1Issued] /\
  snd (fst (Observe demo.client1 (resource.Managed_Key demo.k1) demo.world0))
  <> snd (fst (Observe demo.client1 (resource.Managed_Key demo.k1Issued) demo.world0)).
Proof.
  split; [repeat split|].
  split; [reflexivity|].
  split; [reflexivity|].
  vm_compute. discriminate.
Qed.

(** X14: apart from what is printed, [status.atProvider] is not an input.
    For two Key records that agree on everything but [status.atProvider],
    [Create] marshals the same payload, returns the same results and leaves
    the same world (the same request sent, the same state of the service),
    and [Observe], [Update] and [Delete] return the same results and have
    no effect outside: on either record they leave the service and the
    requests sent as they found them. *)
Theorem atProvider_is_not_an_input {P : Platform} (c : external.t) (a b : v1alpha1.Key.t) (w : World.t P) :
  same_but_atProvider a b ->
  json.Marshal P (payload (v1alpha1.KeySpec.ForProvider (v1alpha1.Key.Spec a))) =
  json.Marshal P (payload (v1alpha1.KeySpec.ForProvider (v1alpha1.Key.Spec b))) /\
  snd (Create c (resource.Managed_Key a) w) = snd (Create c (resource.Managed_Key b) w) /\
  snd (fst (Create c (resource.Managed_Key a) w)) = snd (fst (Create c (resource.Managed_Key b) w)) /\
  snd (Observe c (resource.Managed_Key a) w) = snd (Observe c (resource.Managed_Key b) w) /\
  snd (Update c (resource.Managed_Key a) w) = snd (Update c (resource.Managed_Key b) w) /\
  snd (Delete c (resource.Managed_Key a) w) = snd (Delete c (resource.Managed_Key b) w) /\
  same_outside (snd (fst (Observe c (resource.Managed_Key a) w)))
               (snd (fst (Observe c (resource.Managed_Key b) w))) /\
  same_outside (snd (fst (Update c (resource.Managed_Key a) w)))
               (snd (fst (Update c (resource.Managed_Key b) w))) /\
  same_outside (snd (fst (Delete c (resource.Managed_Key a) w)))
               (snd (fst (Delete c (resource.Managed_Key b) w))) /\
  same_outside (snd (fst (Observe c (resource.Managed_Key a) w))) w /\
  same_outside (snd (fst (Observe c (resource.Managed_Key b) w))) w /\
  same_outside (snd (fst (Update c (resource.Managed_Key a) w))) w /\
  same_outside (snd (fst (Update c (resource.Managed_Key b) w))) w /\
  same_outside (snd (fst (Delete c (resource.Managed_Key a) w))) w /\
  same_outside (snd (fst (Delete c (resource.Managed_Key b) w))) w.
Proof.
  intros (_ & _ & Hspec & _).
  rewrite !Create_Key. cbv zeta. rewrite Hspec.
  split; [reflexivity|].
  split; [|split].
  - destruct (math.IsInf _ || math.IsNaN _); [reflexivity|].
    destruct (url_Parse P _); [reflexivity|].
    destruct (snd (RoundTrip P _ _)) as [resp|err]; [|reflexivity].
    destruct (json_Decode P _); reflexivity.
  - destruct (math.IsInf _ || math.IsNaN _); [reflexivity|].
    destruct (url_Parse P _); [reflexivity|].
    destruct (snd (RoundTrip P _ _)) as [resp|err]; [|reflexivity].
    destruct (json_Decode P _); reflexivity.
  - cbn. unfold same_outside. cbn. repeat split.
Qed.

Lemma atProvider_is_not_an_input_witness :
  json.Marshal demo.platform (payload (v1alpha1.KeySpec.ForProvider (v1alpha1.Key.Spec demo.k1))) =
  json.Marshal demo.platform (payload (v1alpha1.KeySpec.ForProvider (v1alpha1.Key.Spec demo.k1Issued))) /\
  snd (Create demo.client1 (resource.Managed_Key demo.k1) demo.world0)
  = snd (Create demo.client1 (resource.Managed_Key demo.k1Issued) demo.world0) /\
  snd (fst (Create demo.client1 (resource.Managed_Key demo.k1) demo.world0))
  = snd (fst (Create demo.client1 (resource.Managed_Key demo.k1Issued) demo.world0)) /\
  snd (Observe demo.client1 (resource.Managed_Key demo.k1) demo.world0)
  = snd (Observe demo.client1 (resource.Managed_Key demo.k1Issued) demo.world0) /\
  snd (Update demo.client1 (resource.Managed_Key demo.k1) demo.world0)
  = snd (Update demo.client1 (resource.Managed_Key demo.k1Issued) demo.world0) /\
  snd (Delete demo.client1 (resource.Managed_Key demo.k1) demo.world0)
  = snd (Delete demo.client1 (resource.Managed_Key demo.k1Issued) demo.world0) /\
  same_outside (snd (fst (Observe demo.client1 (resource.Managed_Key demo.k1) demo.world0)))
               (snd (fst (Observe demo.client1 (resource.Managed_Key demo.k1Issued) demo.world0))) /\
  same_outside (snd (fst (Update demo.client1 (resource.Managed_Key demo.k1) demo.world0)))
               (snd (fst (Update demo.client1 (resource.Managed_Key demo.k1Issued) demo.world0))) /\
  same_outside (snd (fst (Delete demo.client1 (resource.Managed_Key demo.k1) demo.world0)))
               (snd (fst (Delete demo.client1 (resource.Managed_Key demo.k1Issued) demo.world0))) /\
  same_outside (snd (fst (Observe demo.client1 (resource.Managed_Key demo.k1) demo.world0))) demo.world0 /\
  same_outside (snd (fst (Observe demo.client1 (resource.Managed_Key demo.k1Issued) demo.world0))) demo.world0 /\
  same_outside (snd (fst (Update demo.client1 (resource.Managed_Key demo.k1) demo.world0))) demo.world0 /\
  same_outside (snd (fst (Update demo.client1 (resource.Managed_Key demo.k1Issued) demo.world0))) demo.world0 /\
  same_outside (snd (fst (Delete demo.client1 (resource.Managed_Key demo.k1) demo.world0))) demo.world0 /\
  same_outside (snd (fst (Delete demo.client1 (resource.Managed_Key demo.k1Issued) demo.world0))) demo.world0.
Proof.
  apply (atProvider_is_not_an_input demo.client1 demo.k1 demo.k1Issued demo.world0).
  unfold same_but_atProvider. repeat split.
Defined.

(** ** The scenario of the design, run on the concrete platform *)

(** Once the ProviderConfig pc1 exists, [Connect] calls the four
    collaborators and returns a client bound to its API base and key. *)
Example Connect_scenario :
  Connect demo.connector1 (resource.Managed_Key demo.k1) demo.kubeWithPc1
  = (@Kube.mk demo.platform (Kube.cluster demo.kubeWithPc1)
       [StepTrack; StepGetPC; StepGetCreds; StepNewService],
     (Some demo.client1, None)).
Proof. vm_compute. reflexivity. Qed.

(** The body sent for the scenario record: nine members in key order, the
    nil slice and the nil map written as null. *)
Example generate_body_scenario :
  generate_body demo.platform (demo.params (S754_zero false))
  = "{" +:+ demo.quote "budget_duration" +:+ ":" +:+ demo.quote EmptyString +:+
    "," +:+ demo.quote "duration" +:+ ":" +:+ demo.quote "24h" +:+
    "," +:+ demo.quote "key" +:+ ":" +:+ demo.quote EmptyString +:+
    "," +:+ demo.quote "key_alias" +:+ ":" +:+ demo.quote "svc-a" +:+
    "," +:+ demo.quote "max_budget" +:+ ":0" +:+
    "," +:+ demo.quote "metadata" +:+ ":null" +:+
    "," +:+ demo.quote "models" +:+ ":null" +:+
    "," +:+ demo.quote "team_id" +:+ ":" +:+ demo.quote EmptyString +:+
    "," +:+ demo.quote "user_id" +:+ ":" +:+ demo.quote EmptyString +:+ "}".
Proof. vm_compute. reflexivity. Qed.

(** [Create] on the scenario record: one request, the status filled from
    the answer, the key published. *)
Example Create_scenario :
  Create demo.client1 (resource.Managed_Key demo.k1) demo.world0
  = (resource.Managed_Key demo.k1Issued,
     @World.mk demo.platform 1%nat
       [generate_request demo.client1
          (bytes_of_string (generate_body demo.platform (demo.params (S754_zero false))))]
       [],
     (managed.ExternalCreation.mk (Some {[ "key" := bytes_of_string "sk-123" ]}), None)).
Proof. vm_compute. reflexivity. Qed.

(** Map members are written in key order, whatever the order of insertion. *)
Example sort_by_key_example :
  json.sort_by_key [("team", 1%nat); ("env", 2%nat); ("owner", 3%nat)]
  = [("env", 2%nat); ("owner", 3%nat); ("team", 1%nat)].
Proof. reflexivity. Qed.

(** * Further properties of the controller *)

Import wiring.

(** ** Calls that never reach the service *)

(** One of [Observe], [Update] and [Delete] on a Key record. *)
Lemma run_op_Key {P : Platform} (c : external.t) (o : Op) (cr : v1alpha1.Key.t) (w : World.t P) :
  exists format : string,
    run_op c o (resource.Managed_Key cr) w =
    (resource.Managed_Key cr, fmt.Printf format cr w, None).
Proof. destruct o; eexists; reflexivity. Qed.

(** X1: any sequence of [Observe], [Update] and [Delete] calls on a Key
    record succeeds at every call, sends no request, leaves the remote
    service and the record as they were, and makes exactly one call of
    [fmt.Printf] per method call. *)
Theorem Observe_Update_Delete_never_call_out {P : Platform} (c : external.t) (ops : list Op) (cr : v1alpha1.Key.t) (w : World.t P) :
  let run := run_ops c ops (resource.Managed_Key cr) w in
  snd run = repeat None (length ops) /\
  fst (fst run) = resource.Managed_Key cr /\
  World.remote (snd (fst run)) = World.remote w /\
  World.wire (snd (fst run)) = World.wire w /\
  length (World.stdout (snd (fst run))) = (length (World.stdout w) + length ops)%nat.
Proof.
  cbv zeta. revert w.
  induction ops as [|o ops IH]; intros w.
  - cbn. repeat split. lia.
  - cbn [run_ops].
    destruct (run_op_Key c o cr w) as [format ->].
    specialize (IH (fmt.Printf format cr w)).
    destruct (run_ops c ops (resource.Managed_Key cr) (fmt.Printf format cr w))
      as [[mg2 w2] errs].
    cbn [fst snd] in *.
    destruct IH as (Herrs & Hmg & Hremote & Hwire & Hout).
    repeat split.
    + cbn. rewrite Herrs. reflexivity.
    + exact Hmg.
    + exact Hremote.
    + exact Hwire.
    + rewrite Hout. cbn. rewrite length_app. cbn. lia.
Qed.

(** ** What Create touches *)

(** X2: whatever its outcome, [Create] on a Key record returns a Key record
    with the same type and object metadata, the same spec and the same
    conditions: at most [status.atProvider] differs.  [Create] writes
    nothing to standard output. *)
Theorem Create_changes_only_atProvider {P : Platform} (c : external.t) (cr : v1alpha1.Key.t) (w : World.t P) :
  exists cr' : v1alpha1.Key.t,
    fst (fst (Create c (resource.Managed_Key cr) w)) = resource.Managed_Key cr' /\
    same_but_atProvider cr cr' /\
    World.stdout (snd (fst (Create c (resource.Managed_Key cr) w))) = World.stdout w.
Proof.
  rewrite Create_Key. cbv zeta.
  destruct (math.IsInf _ || math.IsNaN _).
  { exists cr. repeat split. }
  destruct (url_Parse P _).
  { exists cr. repeat split. }
  destruct (snd (RoundTrip P _ _)) as [resp|err].
  2: { exists cr. repeat split. }
  destruct (json_Decode P _) as [kr|err].
  - exists (created cr kr). repeat split.
  - exists cr. repeat split.
Qed.

(** X3: one [Create] hands at most one request to the HTTP client.  Either
    nothing is sent and the remote service is in the state it was in, or
    exactly the generate request is sent and the service is in the state
    that request left it in. *)
Theorem Create_at_most_one_request {P : Platform} (c : external.t) (cr : v1alpha1.Key.t) (w : World.t P) :
  let w' := snd (fst (Create c (resource.Managed_Key cr) w)) in
  let req :=
    generate_request c
      (bytes_of_string (generate_body P (v1alpha1.KeySpec.ForProvider (v1alpha1.Key.Spec cr)))) in
  (World.wire w' = World.wire w /\ World.remote w' = World.remote w) \/
  (World.wire w' = (World.wire w ++ [req])%list /\
   World.remote w' = fst (RoundTrip P (World.remote w) req)).
Proof.
  cbv zeta. rewrite Create_Key. cbv zeta.
  destruct (math.IsInf _ || math.IsNaN _); [left; split; reflexivity|].
  destruct (url_Parse P _); [left; split; reflexivity|].
  right.
  destruct (snd (RoundTrip P _ _)) as [resp|err]; [|split; reflexivity].
  destruct (json_Decode P _); split; reflexivity.
Qed.

(** ** Failures of Create after the request has been sent *)

(** X4: when the payload marshals and the URL is accepted, but the round
    trip fails, or the service answers with a body that does not decode,
    [Create] returns that error wrapped in the message of the stage, next
    to the zero result (nil connection details).  The record is unchanged,
    yet the request has been sent and the service is in the state the round
    trip left it in: what the service did is not recorded anywhere. *)
Theorem Create_fails_after_sending {P : Platform} (c : external.t) (cr : v1alpha1.Key.t) (w : World.t P) (stage : CreateStage) (err : error) :
  let fp := v1alpha1.KeySpec.ForProvider (v1alpha1.Key.Spec cr) in
  let req := generate_request c (bytes_of_string (generate_body P fp)) in
  let out := RoundTrip P (World.remote w) req in
  math.IsInf (v1alpha1.KeyParameters.MaxBudget fp) || math.IsNaN (v1alpha1.KeyParameters.MaxBudget fp) = false ->
  url_Parse P (external.apiBase c +:+ "/key/generate") = None ->
  (stage = SendRequest /\ snd out = inr err) \/
  (stage = DecodeResponse /\
   exists resp : http.Response.t,
     snd out = inl resp /\ json_Decode P (http.Response.Body resp) = inr err) ->
  Create c (resource.Managed_Key cr) w =
  (resource.Managed_Key cr,
   World.mk (fst out) (World.wire w ++ [req]) (World.stdout w),
   (managed.ExternalCreation.zero, Some (errors.Wrap err (stage_message stage)))).
Proof.
  cbv zeta. intros Hmb Hurl H.
  rewrite Create_Key. cbv zeta. rewrite Hmb, Hurl.
  destruct H as [[-> Hout]|[-> (resp & Hout & Hdec)]].
  - rewrite Hout. reflexivity.
  - rewrite Hout, Hdec. reflexivity.
Qed.

Lemma Create_fails_after_sending_witness :
  Create cases.client2 (resource.Managed_Key demo.k1Issued) cases.brokenWorld =
  (resource.Managed_Key demo.k1Issued,
   World.mk
     (fst (RoundTrip cases.brokenPlatform (World.remote cases.brokenWorld)
             (generate_request cases.client2
                (bytes_of_string (generate_body cases.brokenPlatform
                   (v1alpha1.KeySpec.ForProvider (v1alpha1.Key.Spec demo.k1Issued)))))))
     (World.wire cases.brokenWorld ++
        [generate_request cases.client2
           (bytes_of_string (generate_body cases.brokenPlatform
              (v1alpha1.KeySpec.ForProvider (v1alpha1.Key.Spec demo.k1Issued))))])
     (World.stdout cases.brokenWorld),
   (managed.ExternalCreation.zero,
    Some (errors.Wrap (errors.New "EOF") (stage_message DecodeResponse)))).
Proof.
  apply (Create_fails_after_sending cases.client2 demo.k1Issued cases.brokenWorld
           DecodeResponse (errors.New "EOF")).
  - reflexivity.
  - reflexivity.
  - right. split; [reflexivity|].
    exists (http.Response.mk 502 []). split; reflexivity.
Defined.

(** X5: [Create] never looks at the status code of the answer.  With the
    status code of every answer replaced by any function of it, [Create]
    returns the same record and the same results and leaves the same world;
    an answer with an error status and a body that decodes counts as a key
    issued. *)
Theorem Create_ignores_status_code {P : Platform} (f : Z -> Z) (c : external.t) (mg : resource.Managed) (w : World.t P) :
  let r := Create c mg w in
  let r' := Create c mg (world_with_status f w) in
  fst (fst r') = fst (fst r) /\
  snd r' = snd r /\
  World.remote (snd (fst r')) = World.remote (snd (fst r)) /\
  World.wire (snd (fst r')) = World.wire (snd (fst r)) /\
  World.stdout (snd (fst r')) = World.stdout (snd (fst r)).
Proof.
  cbv zeta. destruct mg as [cr|t]; [|repeat split].
  rewrite !Create_Key. cbv zeta.
  change (url_Parse (with_status f P)) with (url_Parse P).
  change (json_Decode (with_status f P)) with (json_Decode P).
  change (generate_body (with_status f P)) with (generate_body P).
  destruct (math.IsInf _ || math.IsNaN _); [repeat split|].
  destruct (url_Parse P _); [repeat split|].
  cbn [RoundTrip with_status world_with_status World.remote World.wire World.stdout fst snd].
  destruct (RoundTrip P _ _) as [r [resp|err]]; cbn [fst snd http.Response.Body];
    [|repeat split].
  destruct (json_Decode P _); repeat split.
Qed.

(** A 502 with the body of a key: the key is taken. *)
Example Create_accepts_error_status :
  snd (Create demo.client1 (resource.Managed_Key demo.k1)
         (world_with_status (fun _ => 502%Z) demo.world0))
  = (managed.ExternalCreation.mk (Some {[ "key" := bytes_of_string "sk-123" ]}), None).
Proof. vm_compute. reflexivity. Qed.

(** ** Telling the failures of Create apart *)

(** The texts of the errors of two different stages differ, whatever their
    causes. *)
Lemma stage_text_distinct (s1 s2 : CreateStage) (cause1 cause2 : error) :
  s1 <> s2 ->
  errors.Error (errors.Wrap cause1 (stage_message s1)) <>
  errors.Error (errors.Wrap cause2 (stage_message s2)).
Proof.
  intros Hne.
  destruct s1, s2; try (exfalso; apply Hne; reflexivity); cbn; discriminate.
Qed.

(** The stage an error of [Create] on a Key record comes from. *)
Lemma Create_Key_error_stage {P : Platform} (c : external.t) (cr : v1alpha1.Key.t) (w : World.t P) (e : error) :
  snd (snd (Create c (resource.Managed_Key cr) w)) = Some e ->
  exists (s : CreateStage) (cause : error), e = errors.Wrap cause (stage_message s).
Proof.
  rewrite Create_Key. cbv zeta.
  destruct (math.IsInf _ || math.IsNaN _).
  { cbn [snd]. intros [= <-]. exists MarshalPayload. eexists. reflexivity. }
  destruct (url_Parse P _).
  { cbn [snd]. intros [= <-]. exists BuildRequest. eexists. reflexivity. }
  destruct (snd (RoundTrip P _ _)) as [resp|err].
  2: { cbn [snd]. intros [= <-]. exists SendRequest. eexists. reflexivity. }
  destruct (json_Decode P _) as [kr|err].
  - cbn [snd]. discriminate.
  - cbn [snd]. intros [= <-]. exists DecodeResponse. eexists. reflexivity.
Qed.

(** X6: every error [Create] returns on a Key record wraps its cause in the
    message of exactly one of the four stages marshal, build request, send
    request, decode response, and the text of the error tells the stage:
    errors of different stages have different texts, whatever text their
    causes have. *)
Theorem Create_error_tells_stage {P : Platform} (c : external.t) (cr : v1alpha1.Key.t) (w : World.t P) (e : error) :
  snd (snd (Create c (resource.Managed_Key cr) w)) = Some e ->
  exists (s : CreateStage) (cause : error),
    e = errors.Wrap cause (stage_message s) /\
    errors.Error e = stage_message s +:+ ": " +:+ errors.Error cause /\
    forall (s' : CreateStage) (cause' : error),
      errors.Error e = errors.Error (errors.Wrap cause' (stage_message s')) -> s' = s.
Proof.
  intros H.
  destruct (Create_Key_error_stage c cr w e H) as (s & cause & ->).
  exists s, cause. split; [reflexivity|]. split; [reflexivity|].
  intros s' cause' Htext.
  destruct s, s'; try reflexivity;
    exfalso; revert Htext; apply stage_text_distinct; discriminate.
Qed.

Lemma Create_error_tells_stage_witness :
  exists (s : CreateStage) (cause : error),
    errors.Wrap (errors.New "json: unsupported value: NaN") "failed to marshal payload"
    = errors.Wrap cause (stage_message s) /\
    errors.Error (errors.Wrap (errors.New "json: unsupported value: NaN") "failed to marshal payload")
    = stage_message s +:+ ": " +:+ errors.Error cause /\
    forall (s' : CreateStage) (cause' : error),
      errors.Error (errors.Wrap (errors.New "json: unsupported value: NaN") "failed to marshal payload")
      = errors.Error (errors.Wrap cause' (stage_message s')) -> s' = s.
Proof.
  apply (Create_error_tells_stage demo.client1 demo.kNaN demo.world0).
  vm_compute. reflexivity.
Defined.

(** ** Secrets are returned only on success *)

(** X7: [Create] returns connection details exactly when it returns no
    error: next to an error, for a record of any kind, the result is the
    zero value, whose connection details are nil. *)
Theorem Create_details_iff_success {P : Platform} (c : external.t) (mg : resource.Managed) (w : World.t P) :
  let r := snd (Create c mg w) in
  (snd r = None <->
   exists m : gmap string bytes, managed.ExternalCreation.ConnectionDetails (fst r) = Some m) /\
  (snd r <> None -> fst r = managed.ExternalCreation.zero).
Proof.
  cbv zeta.
  assert (Hzero : forall (mg' : resource.Managed) (w' : World.t P) (e : error),
    let r := snd (mg', w', (managed.ExternalCreation.zero, Some e)) in
    (snd r = None <->
     exists m : gmap string bytes, managed.ExternalCreation.ConnectionDetails (fst r) = Some m) /\
    (snd r <> None -> fst r = managed.ExternalCreation.zero)).
  { intros mg' w' e. cbn. split; [split|reflexivity].
    - discriminate.
    - intros [m Hm]. discriminate Hm. }
  destruct mg as [cr|t]; [|apply Hzero].
  rewrite Create_Key. cbv zeta.
  destruct (math.IsInf _ || math.IsNaN _); [apply Hzero|].
  destruct (url_Parse P _); [apply Hzero|].
  destruct (snd (RoundTrip P _ _)) as [resp|err]; [|apply Hzero].
  destruct (json_Decode P _) as [kr|err]; [|apply Hzero].
  cbn [fst snd managed.ExternalCreation.ConnectionDetails].
  split; [split|].
  - intros _. eexists. reflexivity.
  - reflexivity.
  - intros H. exfalso. apply H. reflexivity.
Qed.

(** ** Where the API key goes *)

(** X8: the API key of the client reaches the request only through the
    Authorization header.  Two clients with the same API base and different
    keys send, for the same record, requests with the same method, URL and
    body and the same headers but Authorization. *)
Theorem Create_api_key_only_in_header {P : Platform} (c1 c2 : external.t) (cr : v1alpha1.Key.t) (w : World.t P) :
  let fp := v1alpha1.KeySpec.ForProvider (v1alpha1.Key.Spec cr) in
  external.apiBase c1 = external.apiBase c2 ->
  math.IsInf (v1alpha1.KeyParameters.MaxBudget fp) || math.IsNaN (v1alpha1.KeyParameters.MaxBudget fp) = false ->
  url_Parse P (external.apiBase c1 +:+ "/key/generate") = None ->
  exists r1 r2 : http.Request.t,
    World.wire (snd (fst (Create c1 (resource.Managed_Key cr) w))) = (World.wire w ++ [r1])%list /\
    World.wire (snd (fst (Create c2 (resource.Managed_Key cr) w))) = (World.wire w ++ [r2])%list /\
    http.Request.Method r1 = http.Request.Method r2 /\
    http.Request.URL r1 = http.Request.URL r2 /\
    http.Request.Body r1 = http.Request.Body r2 /\
    delete "Authorization" (http.Request.Header r1) = delete "Authorization" (http.Request.Header r2) /\
    http.Request.Header r1 !! "Authorization" = Some ["Bearer " +:+ external.apiKey c1] /\
    http.Request.Header r2 !! "Authorization" = Some ["Bearer " +:+ external.apiKey c2].
Proof.
  cbv zeta. intros Hbase Hmb Hurl.
  exists (generate_request c1 (bytes_of_string (generate_body P (v1alpha1.KeySpec.ForProvider (v1alpha1.Key.Spec cr))))),
         (generate_request c2 (bytes_of_string (generate_body P (v1alpha1.KeySpec.ForProvider (v1alpha1.Key.Spec cr))))).
  rewrite !Create_Key. cbv zeta. rewrite <- Hbase, Hmb, Hurl.
  split.
  { destruct (snd (RoundTrip P _ _)) as [resp|err]; [|reflexivity].
    destruct (json_Decode P _); reflexivity. }
  split.
  { unfold generate_request at 1 2. rewrite <- Hbase.
    destruct (snd (RoundTrip P _ _)) as [resp|err]; [|reflexivity].
    destruct (json_Decode P _); reflexivity. }
  unfold generate_request. cbn [http.Request.Method http.Request.URL http.Request.Body http.Request.Header].
  rewrite <- Hbase.
  repeat split.
Qed.

Lemma Create_api_key_only_in_header_witness :
  exists r1 r2 : http.Request.t,
    World.wire (snd (fst (Create demo.client1 (resource.Managed_Key demo.k1) demo.world0)))
    = (World.wire demo.world0 ++ [r1])%list /\
    World.wire (snd (fst (Create cases.client2 (resource.Managed_Key demo.k1) demo.world0)))
    = (World.wire demo.world0 ++ [r2])%list /\
    http.Request.Method r1 = http.Request.Method r2 /\
    http.Request.URL r1 = http.Request.URL r2 /\
    http.Request.Body r1 = http.Request.Body r2 /\
    delete "Authorization" (http.Request.Header r1) = delete "Authorization" (http.Request.Header r2) /\
    http.Request.Header r1 !! "Authorization" = Some ["Bearer " +:+ external.apiKey demo.client1] /\
    http.Request.Header r2 !! "Authorization" = Some ["Bearer " +:+ external.apiKey cases.client2].
Proof.
  apply (Create_api_key_only_in_header demo.client1 cases.client2 demo.k1 demo.world0).
  - reflexivity.
  - reflexivity.
  - reflexivity.
Defined.

(** ** What Connect returns and leaves behind *)

(** The successful path of [Connect]: every collaborator succeeded, and the
    client is built from what they returned. *)
Lemma Connect_Key_success {P : Platform} (c : connector.t P) (cr : v1alpha1.Key.t) (k : Kube.t P) :
  snd (snd (Connect c (resource.Managed_Key cr) k)) = None ->
  exists (cl : Cluster P) (pc : apisv1alpha1.ProviderConfig.t) (data : bytes) (svc : Service),
    Tracker.Track (connector.usage c) (Kube.cluster k) (resource.Managed_Key cr) = (cl, None) /\
    client.Client.Get (connector.kube c) cl
      (xpv1.Reference.Name (v1alpha1.GetProviderConfigReference cr)) = inl pc /\
    CommonCredentialExtractor P (connector.kube c) cl
      (apisv1alpha1.ProviderCredentials.Source
         (apisv1alpha1.ProviderConfigSpec.Credentials (apisv1alpha1.ProviderConfig.Spec pc)))
      (apisv1alpha1.ProviderCredentials.CommonCredentialSelectors
         (apisv1alpha1.ProviderConfigSpec.Credentials (apisv1alpha1.ProviderConfig.Spec pc)))
    = inl data /\
    connector.newServiceFn c data = (svc, None) /\
    fst (snd (Connect c (resource.Managed_Key cr) k)) =
      Some (external.mk svc http.Client.mk
              (apisv1alpha1.ProviderConfigSpec.APIBase (apisv1alpha1.ProviderConfig.Spec pc))
              (APIKeyOf P data)).
Proof.
  unfold Connect, step.
  destruct (Tracker.Track _ _ _) as [cl [e|]] eqn:Htrack; cbn; [discriminate|].
  destruct (client.Client.Get _ _ _) as [pc|e] eqn:Hget; cbn; [|discriminate].
  destruct (CommonCredentialExtractor P _ _ _ _) as [data|e] eqn:Hcreds; cbn; [|discriminate].
  destruct (connector.newServiceFn c data) as [svc [e|]] eqn:Hsvc; cbn; [discriminate|].
  intros _. exists cl, pc, data, svc. repeat split; assumption.
Qed.

(** X9: when [Connect] succeeds, the client it returns is bound to the
    API base of the ProviderConfig the record refers to by name, fetched
    after the usage was tracked, and to the API key read from the
    credentials that ProviderConfig selects; its service is the one the
    construction function made from those credentials. *)
Theorem Connect_binds_client_to_ProviderConfig {P : Platform} (c : connector.t P) (cr : v1alpha1.Key.t) (k : Kube.t P) :
  snd (snd (Connect c (resource.Managed_Key cr) k)) = None ->
  exists (cl : Cluster P) (pc : apisv1alpha1.ProviderConfig.t) (data : bytes) (ec : external.t),
    fst (Tracker.Track (connector.usage c) (Kube.cluster k) (resource.Managed_Key cr)) = cl /\
    client.Client.Get (connector.kube c) cl
      (xpv1.Reference.Name
         (xpv1.ResourceSpec.ProviderConfigReference
            (v1alpha1.KeySpec.ResourceSpec (v1alpha1.Key.Spec cr)))) = inl pc /\
    CommonCredentialExtractor P (connector.kube c) cl
      (apisv1alpha1.ProviderCredentials.Source
         (apisv1alpha1.ProviderConfigSpec.Credentials (apisv1alpha1.ProviderConfig.Spec pc)))
      (apisv1alpha1.ProviderCredentials.CommonCredentialSelectors
         (apisv1alpha1.ProviderConfigSpec.Credentials (apisv1alpha1.ProviderConfig.Spec pc)))
    = inl data /\
    fst (snd (Connect c (resource.Managed_Key cr) k)) = Some ec /\
    external.apiBase ec =
      apisv1alpha1.ProviderConfigSpec.APIBase (apisv1alpha1.ProviderConfig.Spec pc) /\
    external.apiKey ec = APIKeyOf P data /\
    external.service ec = fst (connector.newServiceFn c data).
Proof.
  intros H.
  destruct (Connect_Key_success c cr k H) as (cl & pc & data & svc & Htrack & Hget & Hcreds & Hsvc & Hec).
  exists cl, pc, data,
    (external.mk svc http.Client.mk
       (apisv1alpha1.ProviderConfigSpec.APIBase (apisv1alpha1.ProviderConfig.Spec pc))
       (APIKeyOf P data)).
  rewrite Htrack, Hsvc. repeat split; assumption.
Qed.

Lemma Connect_binds_client_to_ProviderConfig_witness :
  exists (cl : Cluster demo.platform) (pc : apisv1alpha1.ProviderConfig.t) (data : bytes) (ec : external.t),
    fst (Tracker.Track (connector.usage demo.connector1) (Kube.cluster demo.kubeWithPc1)
           (resource.Managed_Key demo.k1)) = cl /\
    client.Client.Get (connector.kube demo.connector1) cl
      (xpv1.Reference.Name
         (xpv1.ResourceSpec.ProviderConfigReference
            (v1alpha1.KeySpec.ResourceSpec (v1alpha1.Key.Spec demo.k1)))) = inl pc /\
    CommonCredentialExtractor demo.platform (connector.kube demo.connector1) cl
      (apisv1alpha1.ProviderCredentials.Source
         (apisv1alpha1.ProviderConfigSpec.Credentials (apisv1alpha1.ProviderConfig.Spec pc)))
      (apisv1alpha1.ProviderCredentials.CommonCredentialSelectors
         (apisv1alpha1.ProviderConfigSpec.Credentials (apisv1alpha1.ProviderConfig.Spec pc)))
    = inl data /\
    fst (snd (Connect demo.connector1 (resource.Managed_Key demo.k1) demo.kubeWithPc1)) = Some ec /\
    external.apiBase ec =
      apisv1alpha1.ProviderConfigSpec.APIBase (apisv1alpha1.ProviderConfig.Spec pc) /\
    external.apiKey ec = APIKeyOf demo.platform data /\
    external.service ec = fst (connector.newServiceFn demo.connector1 data).
Proof.
  apply (Connect_binds_client_to_ProviderConfig demo.connector1 demo.k1 demo.kubeWithPc1).
  vm_compute. reflexivity.
Defined.

(** X10: [Connect] never undoes the usage tracking.  On a Key record the
    cluster is left exactly as the tracker left it, whether [Connect]
    succeeds or a later step fails; on a record of another kind the cluster
    is untouched and no collaborator is called. *)
Theorem Connect_keeps_usage_tracked {P : Platform} (c : connector.t P) (k : Kube.t P) :
  (forall cr : v1alpha1.Key.t,
     Kube.cluster (fst (Connect c (resource.Managed_Key cr) k)) =
     fst (Tracker.Track (connector.usage c) (Kube.cluster k) (resource.Managed_Key cr))) /\
  (forall t : v1alpha1.Team.t, fst (Connect c (resource.Managed_Team t) k) = k).
Proof.
  split; [|reflexivity].
  intros cr. unfold Connect, step.
  destruct (Tracker.Track _ _ _) as [cl [e|]]; cbn; [reflexivity|].
  destruct (client.Client.Get _ _ _) as [pc|e]; cbn; [|reflexivity].
  destruct (CommonCredentialExtractor P _ _ _ _) as [data|e]; cbn; [|reflexivity].
  destruct (connector.newServiceFn c data) as [svc [e|]]; reflexivity.
Qed.

(** ** The connector installed by Setup *)



(** ** From Connect to the request of Create *)

(** A client is returned only without an error. *)
Lemma Connect_client_without_error {P : Platform} (c : connector.t P) (mg : resource.Managed) (k : Kube.t P) (ec : external.t) :
  fst (snd (Connect c mg k)) = Some ec -> snd (snd (Connect c mg k)) = None.
Proof.
  destruct mg as [cr|t]; [|discriminate].
  unfold Connect.
  destruct (Tracker.Track _ _ _) as [cl [e|]]; cbn; [discriminate|].
  destruct (client.Client.Get _ _ _) as [pc|e]; cbn; [|discriminate].
  destruct (CommonCredentialExtractor P _ _ _ _) as [data|e]; cbn; [|discriminate].
  destruct (connector.newServiceFn c data) as [svc [e|]]; cbn; [discriminate|reflexivity].
Qed.

(** X12: the request [Create] sends with a client obtained from [Connect]
    goes to the API base of the record's ProviderConfig followed by
    /key/generate, and carries as bearer token the API key read from the
    credentials resolved for that ProviderConfig. *)
Theorem Connect_then_Create_request {P : Platform} (c : connector.t P) (cr : v1alpha1.Key.t) (k : Kube.t P) (w : World.t P) (ec : external.t) :
  let fp := v1alpha1.KeySpec.ForProvider (v1alpha1.Key.Spec cr) in
  fst (snd (Connect c (resource.Managed_Key cr) k)) = Some ec ->
  math.IsInf (v1alpha1.KeyParameters.MaxBudget fp) || math.IsNaN (v1alpha1.KeyParameters.MaxBudget fp) = false ->
  url_Parse P (external.apiBase ec +:+ "/key/generate") = None ->
  exists (pc : apisv1alpha1.ProviderConfig.t) (data : bytes),
    client.Client.Get (connector.kube c)
      (fst (Tracker.Track (connector.usage c) (Kube.cluster k) (resource.Managed_Key cr)))
      (xpv1.Reference.Name (v1alpha1.GetProviderConfigReference cr)) = inl pc /\
    CommonCredentialExtractor P (connector.kube c)
      (fst (Tracker.Track (connector.usage c) (Kube.cluster k) (resource.Managed_Key cr)))
      (apisv1alpha1.ProviderCredentials.Source
         (apisv1alpha1.ProviderConfigSpec.Credentials (apisv1alpha1.ProviderConfig.Spec pc)))
      (apisv1alpha1.ProviderCredentials.CommonCredentialSelectors
         (apisv1alpha1.ProviderConfigSpec.Credentials (apisv1alpha1.ProviderConfig.Spec pc)))
    = inl data /\
    World.wire (snd (fst (Create ec (resource.Managed_Key cr) w))) =
    (World.wire w ++
     [ http.Request.mk "POST"
         (apisv1alpha1.ProviderConfigSpec.APIBase (apisv1alpha1.ProviderConfig.Spec pc) +:+ "/key/generate")
         {[ "Content-Type" := ["application/json"];
            "Authorization" := ["Bearer " +:+ APIKeyOf P data] ]}
         (bytes_of_string (generate_body P fp)) ])%list.
Proof.
  cbv zeta. intros Hec Hmb Hurl.
  pose proof (Connect_client_without_error c _ k ec Hec) as Hok.
  destruct (Connect_Key_success c cr k Hok) as (cl & pc & data & svc & Htrack & Hget & Hcreds & Hsvc & Hec').
  rewrite Hec in Hec'. injection Hec' as ->.
  exists pc, data. rewrite Htrack. cbn [fst].
  split; [exact Hget|]. split; [exact Hcreds|].
  rewrite Create_Key. cbv zeta. rewrite Hmb, Hurl.
  destruct (snd (RoundTrip P _ _)) as [resp|err]; [|reflexivity].
  destruct (json_Decode P _); reflexivity.
Qed.

Lemma Connect_then_Create_request_witness :
  exists (pc : apisv1alpha1.ProviderConfig.t) (data : bytes),
    client.Client.Get (connector.kube demo.connector1)
      (fst (Tracker.Track (connector.usage demo.connector1) (Kube.cluster demo.kubeWithPc1)
              (resource.Managed_Key demo.k1)))
      (xpv1.Reference.Name (v1alpha1.GetProviderConfigReference demo.k1)) = inl pc /\
    CommonCredentialExtractor demo.platform (connector.kube demo.connector1)
      (fst (Tracker.Track (connector.usage demo.connector1) (Kube.cluster demo.kubeWithPc1)
              (resource.Managed_Key demo.k1)))
      (apisv1alpha1.ProviderCredentials.Source
         (apisv1alpha1.ProviderConfigSpec.Credentials (apisv1alpha1.ProviderConfig.Spec pc)))
      (apisv1alpha1.ProviderCredentials.CommonCredentialSelectors
         (apisv1alpha1.ProviderConfigSpec.Credentials (apisv1alpha1.ProviderConfig.Spec pc)))
    = inl data /\
    World.wire (snd (fst (Create demo.client1 (resource.Managed_Key demo.k1) demo.world0))) =
    (World.wire demo.world0 ++
     [ http.Request.mk "POST"
         (apisv1alpha1.ProviderConfigSpec.APIBase (apisv1alpha1.ProviderConfig.Spec pc) +:+ "/key/generate")
         {[ "Content-Type" := ["application/json"];
            "Authorization" := ["Bearer " +:+ APIKeyOf demo.platform data] ]}
         (bytes_of_string
            (generate_body demo.platform (v1alpha1.KeySpec.ForProvider (v1alpha1.Key.Spec demo.k1)))) ])%list.
Proof.
  apply (Connect_then_Create_request demo.connector1 demo.k1 demo.kubeWithPc1 demo.world0 demo.client1).
  - vm_compute. reflexivity.
  - reflexivity.
  - reflexivity.
Defined.

(** ** Create called again *)

(** X13: [Create] does not look for a key issued earlier.  Called again on
    the record and the world a successful [Create] left, it sends the very
    same request a second time: the service has then been asked twice for a
    key for the same parameters. *)
Theorem Create_again_sends_same_request {P : Platform} (c : external.t) (cr : v1alpha1.Key.t) (w w1 : World.t P) (mg1 : resource.Managed) (cre1 : managed.ExternalCreation.t) :
  let req :=
    generate_request c
      (bytes_of_string (generate_body P (v1alpha1.KeySpec.ForProvider (v1alpha1.Key.Spec cr)))) in
  Create c (resource.Managed_Key cr) w = (mg1, w1, (cre1, None)) ->
  World.wire w1 = (World.wire w ++ [req])%list /\
  World.wire (snd (fst (Create c mg1 w1))) = (World.wire w ++ [req; req])%list.
Proof.
  cbv zeta. rewrite Create_Key. cbv zeta.
  destruct (math.IsInf _ || math.IsNaN _) eqn:Hmb; [discriminate|].
  destruct (url_Parse P _) eqn:Hurl; [discriminate|].
  destruct (snd (RoundTrip P _ _)) as [resp|err]; [|discriminate].
  destruct (json_Decode P _) as [kr|err]; [|discriminate].
  intros H. injection H as <- <- <-.
  split; [reflexivity|].
  rewrite Create_Key. cbv zeta.
  change (v1alpha1.Key.Spec (created cr kr)) with (v1alpha1.Key.Spec cr).
  rewrite Hmb, Hurl.
  cbn [World.wire World.remote World.stdout].
  destruct (snd (RoundTrip P _ _)) as [resp2|err2].
  - destruct (json_Decode P _); cbn; rewrite <- app_assoc; reflexivity.
  - cbn. rewrite <- app_assoc. reflexivity.
Qed.

Lemma Create_again_sends_same_request_witness :
  World.wire cases.world1 =
    (World.wire demo.world0 ++
     [generate_request demo.client1
        (bytes_of_string
           (generate_body demo.platform (v1alpha1.KeySpec.ForProvider (v1alpha1.Key.Spec demo.k1))))])%list /\
  World.wire (snd (fst (Create demo.client1 (resource.Managed_Key demo.k1Issued) cases.world1))) =
    (World.wire demo.world0 ++
     [generate_request demo.client1
        (bytes_of_string
           (generate_body demo.platform (v1alpha1.KeySpec.ForProvider (v1alpha1.Key.Spec demo.k1))));
      generate_request demo.client1
        (bytes_of_string
           (generate_body demo.platform (v1alpha1.KeySpec.ForProvider (v1alpha1.Key.Spec demo.k1))))])%list.
Proof.
  apply (Create_again_sends_same_request demo.client1 demo.k1 demo.world0 cases.world1
           (resource.Managed_Key demo.k1Issued)
           (managed.ExternalCreation.mk (Some {[ "key" := bytes_of_string "sk-123" ]}))).
  vm_compute. reflexivity.
Defined.

(** The service of the concrete platform has issued two keys by then. *)
Example Create_again_issues_second_key :
  World.remote (snd (fst (Create demo.client1 (resource.Managed_Key demo.k1Issued) cases.world1)))
  = 2%nat.
Proof. vm_compute. reflexivity. Qed.
